(** * school-api: the Student and Teacher controllers

    A shallow embedding of [controllers/student.controller.js] and
    [controllers/teacher.controller.js].

    Modelling choices, all of them visible in the definitions below:

    - A query-string value is a JavaScript string or is absent
      ([option string]), the input type section 4.1 of the specification
      gives.  A key that is repeated in the URL reaches the handlers as an
      array; that is outside this type, and nothing below speaks of it.
      Characters are code units below 256 (Rocq's [ascii]); the built-ins
      [toLowerCase], [trim] and [parseInt] are written out for that
      range.
    - A JavaScript number is a double.  The handlers only ever hold
      integers, the infinities and [NaN]: [Num z] is the double of value
      [z], [Inf] an infinity.  Every operation rounds its exact result to
      the nearest double, ties to even, as IEEE 754 does ([Js.double],
      [Js.quotient]); below 2^53 nothing is rounded.  [-0] is identified
      with [0]: both are falsy and both are serialised as [0].
    - An [async] handler is a tree of [await]ed data-access calls
      ([Handler]); each call has a continuation for the resolved value
      and one for the rejection, which is where the source's
      [try]/[catch] shows.  [run] executes a handler against a
      data-access layer and a store, and records the calls it made.
    - The ORM ([db.Student], [db.Teacher], [db.Course]) is not part of the
      controllers: it is the parameter [DataAccess]. *)

From Stdlib Require Import ZArith List Ascii String Bool Lia.
From stdpp Require Import base option list strings gmap.

Set Warnings "-register-all".

Local Open Scope string_scope.
Local Open Scope Z_scope.

(** ** JavaScript built-ins used by the controllers *)

Module Js.

(** *** Numbers *)

Inductive Number : Type :=
| NaN
| Inf (negative : bool)
| Num (z : Z).

(** The double nearest to the integer [z], ties to even: exact below
    2^53, 53 significant bits above, an infinity from
    2^1024 - 2^970 on. *)
Definition double (z : Z) : Number :=
  let a := Z.abs z in
  if a <? 2 ^ 53 then Num z
  else
    let shift := Z.log2 a - 52 in
    let q := a / 2 ^ shift in
    let r := a mod 2 ^ shift in
    let half := 2 ^ (shift - 1) in
    let m := if (half <? r) || ((r =? half) && Z.odd q) then q + 1 else q in
    let v := m * 2 ^ shift in
    if 2 ^ 1024 <=? v then Inf (z <? 0) else Num (Z.sgn z * v).

(** A row count as the number the ORM delivers. *)
Definition ofNat (n : nat) : Number := double (Z.of_nat n).

(** [ToBoolean] on a number: [NaN] and zero are falsy. *)
Definition truthy (n : Number) : bool :=
  match n with
  | NaN => false
  | Inf _ => true
  | Num z => negb (z =? 0)
  end.

(** [n || d] where [d] is a non-zero numeric literal. *)
Definition numOr (n : Number) (d : Z) : Number :=
  if truthy n then n else Num d.

(** [a - b]. *)
Definition sub (a b : Number) : Number :=
  match a, b with
  | NaN, _ | _, NaN => NaN
  | Inf sa, Inf sb => if Bool.eqb sa sb then NaN else Inf sa
  | Inf sa, Num _ => Inf sa
  | Num _, Inf sb => Inf (negb sb)
  | Num x, Num y => double (x - y)
  end.

(** [a * b]. *)
Definition mul (a b : Number) : Number :=
  match a, b with
  | NaN, _ | _, NaN => NaN
  | Inf sa, Inf sb => Inf (xorb sa sb)
  | Inf sa, Num y => if y =? 0 then NaN else Inf (xorb sa (y <? 0))
  | Num x, Inf sb => if x =? 0 then NaN else Inf (xorb (x <? 0) sb)
  | Num x, Num y => double (x * y)
  end.

(** [floor (log2 (a / b))] for positive [a] and [b]. *)
Definition log2Quotient (a b : Z) : Z :=
  let k := Z.log2 a - Z.log2 b in
  if a * 2 ^ Z.max 0 (- k) <? b * 2 ^ Z.max 0 k then k - 1 else k.

(** The double nearest to [a / b], ties to even, for positive [a] and
    [b]: the pair [(m, e)] stands for [m * 2^e], with 53 significant bits
    in [m], or fewer where the exponent has reached its minimum -1074. *)
Definition quotient (a b : Z) : Z * Z :=
  let e := Z.max (log2Quotient a b - 52) (- 1074) in
  let num := a * 2 ^ Z.max 0 (- e) in
  let den := b * 2 ^ Z.max 0 e in
  let m := num / den in
  let r := num mod den in
  let m' := if (den <? 2 * r) || ((2 * r =? den) && Z.odd m) then m + 1 else m in
  (m', e).

(** [Math.ceil] and [Math.floor] of the positive double [m * 2^e]. *)
Definition ceilOf (me : Z * Z) : Z :=
  let '(m, e) := me in
  if 0 <=? e then m * 2 ^ e else - ((- m) / 2 ^ (- e)).

Definition floorOf (me : Z * Z) : Z :=
  let '(m, e) := me in
  if 0 <=? e then m * 2 ^ e else m / 2 ^ (- e).

(** [Math.ceil(a / b)]: the quotient is rounded to a double first. *)
Definition ceilDiv (a b : Number) : Number :=
  match a, b with
  | NaN, _ | _, NaN => NaN
  | Inf _, Inf _ => NaN
  | Inf sa, Num y => Inf (xorb sa (y <? 0))
  | Num _, Inf _ => Num 0
  | Num x, Num y =>
      if y =? 0 then (if x =? 0 then NaN else Inf (x <? 0))
      else if x =? 0 then Num 0
      else
        let q := quotient (Z.abs x) (Z.abs y) in
        if Z.sgn x =? Z.sgn y then double (ceilOf q) else double (- floorOf q)
  end.

(** *** Strings *)

Definition mapString (f : ascii -> ascii) : string -> string :=
  fix go (s : string) : string :=
    match s with
    | EmptyString => EmptyString
    | String c r => String (f c) (go r)
    end.

Definition lowerChar (c : ascii) : ascii :=
  let n := N_of_ascii c in
  if ((65 <=? n) && (n <=? 90)
      || (192 <=? n) && (n <=? 222) && negb (n =? 215))%N
  then ascii_of_N (n + 32)
  else c.

(** [String.prototype.toLowerCase]. *)
Definition toLowerCase : string -> string := mapString lowerChar.

(** White space and line terminators: TAB, LF, VT, FF, CR, SP, NBSP. *)
Definition isWhiteSpace (c : ascii) : bool :=
  let n := N_of_ascii c in
  ((9 <=? n) && (n <=? 13) || (n =? 32) || (n =? 160))%N.

Fixpoint trimStart (s : string) : string :=
  match s with
  | EmptyString => EmptyString
  | String c r => if isWhiteSpace c then trimStart r else s
  end.

Fixpoint trimEnd (s : string) : string :=
  match s with
  | EmptyString => EmptyString
  | String c r =>
      match trimEnd r with
      | EmptyString => if isWhiteSpace c then EmptyString else String c EmptyString
      | r' => String c r'
      end
  end.

(** [String.prototype.trim]. *)
Definition trim (s : string) : string := trimEnd (trimStart s).

(** [String.prototype.split] with a one-character separator.  The result
    is never the empty array: splitting the empty string gives one
    empty piece. *)
Fixpoint split (sep : ascii) (s : string) : list string :=
  match s with
  | EmptyString => [EmptyString]
  | String c r =>
      if Ascii.eqb c sep then EmptyString :: split sep r
      else match split sep r with
           | piece :: pieces => String c piece :: pieces
           | [] => [String c EmptyString]
           end
  end.

(** [Array.prototype.includes] on an array of strings. *)
Definition includes (xs : list string) (x : string) : bool :=
  existsb (String.eqb x) xs.

(** [String.prototype.startsWith]. *)
Definition startsWith (s p : string) : bool := String.prefix p s.

(** [String.prototype.substring] with one argument. *)
Fixpoint substring (s : string) (start : nat) {struct start} : string :=
  match start, s with
  | O, _ => s
  | S n, String _ r => substring r n
  | S _, EmptyString => EmptyString
  end.

(** [s || d] for a possibly absent string: absent and empty are falsy. *)
Definition strOr (s : option string) (d : string) : string :=
  match s with
  | None => d
  | Some EmptyString => d
  | Some v => v
  end.

(** *** parseInt *)

(** [ToString] of the argument: an absent parameter is [undefined]. *)
Definition toStringArg (v : option string) : string :=
  match v with
  | None => "undefined"
  | Some s => s
  end.

(** The value of a digit in radixes up to 36. *)
Definition digitValue (c : ascii) : option Z :=
  let n := Z.of_N (N_of_ascii c) in
  if (48 <=? n) && (n <=? 57) then Some (n - 48)
  else if (97 <=? n) && (n <=? 122) then Some (n - 87)
  else if (65 <=? n) && (n <=? 90) then Some (n - 55)
  else None.

(** The longest prefix of [s] made of radix-[R] digits. *)
Fixpoint digits (R : Z) (s : string) : list Z :=
  match s with
  | EmptyString => []
  | String c r =>
      match digitValue c with
      | Some d => if d <? R then d :: digits R r else []
      | None => []
      end
  end.

Definition mathInt (R : Z) (ds : list Z) : Z :=
  fold_left (fun acc d => acc * R + d) ds 0.

(** [parseInt(v)] with no radix argument: leading white space is
    skipped, a sign is read, an [0x]/[0X] prefix selects radix 16, and
    the digits that follow are read up to the first character that is
    not one.  No digit at all gives [NaN]; otherwise the result is the
    double nearest to the integer read. *)
Definition parseInt (v : option string) : Number :=
  let S0 := trimStart (toStringArg v) in
  let '(sign, S1) :=
    match S0 with
    | String "-" r => (-1, r)
    | String "+" r => (1, r)
    | _ => (1, S0)
    end in
  let '(R, S2) :=
    match S1 with
    | String "0" (String "x" r) => (16, r)
    | String "0" (String "X" r) => (16, r)
    | _ => (10, S1)
    end in
  match digits R S2 with
  | [] => NaN
  | ds => double (sign * mathInt R ds)
  end.

End Js.

(** ** Data model *)

(** The three Sequelize models reachable from [db]. *)
Inductive ModelName : Type := Student | Teacher | Course.

(** JSON values: request bodies, response bodies and model instances as
    they are serialised. *)
Inductive Json : Type :=
| JNull
| JNum (z : Z)
| JStr (s : string)
| JArr (items : list Json)
| JObj (fields : list (string * Json)).

(** A model instance, as [res.json] sends it. *)
Abbreviation Row := Json (only parsing).

(** [JSON.stringify] of a number: [NaN] and the infinities become
    [null]. *)
Definition jnum (n : Js.Number) : Json :=
  match n with
  | Js.NaN => JNull
  | Js.Inf _ => JNull
  | Js.Num z => JNum z
  end.

(** Property access on a JSON value; [None] is [undefined]. *)
Fixpoint assoc (k : string) (fields : list (string * Json)) : option Json :=
  match fields with
  | [] => None
  | (k', v) :: rest => if String.eqb k k' then Some v else assoc k rest
  end.

Definition prop (k : string) (j : Json) : option Json :=
  match j with
  | JObj fields => assoc k fields
  | _ => None
  end.

Inductive SortOrder : Type := ASC | DESC.

(** One entry of a Sequelize [include] array: [{ model, through, include }].
    [through = Some attrs] stands for [through: { attributes: attrs }];
    [nested = None] for an entry without an [include] property. *)
Inductive IncludeSpec : Type :=
  mkInclude (model : ModelName)
            (through : option (list string))
            (nested : option (list IncludeSpec)).

Definition setNested (i : IncludeSpec) (l : list IncludeSpec) : IncludeSpec :=
  match i with
  | mkInclude m t _ => mkInclude m t (Some l)
  end.

(** The options object handed to [findAll]. *)
Record FindOptions : Type := mkFindOptions {
  limit : Js.Number;
  offset : Js.Number;
  order : list (string * SortOrder);
  include : list IncludeSpec
}.

Record Query : Type := mkQuery {
  q_limit : option string;
  q_page : option string;
  q_sortby : option string;
  q_populate : option string
}.

(** The parts of an Express request the controllers read. *)
Record Request : Type := mkRequest {
  query : Query;
  params_id : string;
  body : Json
}.

Record Error : Type := mkError { message : string }.

(** ** Handlers as trees of awaited calls *)

Inductive Handler : Type :=
| Respond (status : Z) (payload : Json)
    (* res.status(status).json(payload) *)
| Throw (e : Error)
    (* an exception outside any try block: the returned promise rejects *)
| AwaitCount (m : ModelName)
    (k : nat -> Handler) (kerr : Error -> Handler)
| AwaitFindAll (m : ModelName) (opts : FindOptions)
    (k : list Row -> Handler) (kerr : Error -> Handler)
| AwaitFindByPk (m : ModelName) (id : string) (opts : option (list IncludeSpec))
    (k : option Row -> Handler) (kerr : Error -> Handler)
| AwaitUpdate (m : ModelName) (instance : Row) (values : Json)
    (k : Row -> Json -> Handler) (kerr : Error -> Handler)
    (* await instance.update(values): [k] is given the instance as the
       call left it, then the value the promise resolved to *)
| AwaitDestroy (m : ModelName) (instance : Row)
    (k : unit -> Handler) (kerr : Error -> Handler).

(** A call as the data-access layer receives it. *)
Inductive Call : Type :=
| CCount (m : ModelName)
| CFindAll (m : ModelName) (opts : FindOptions)
| CFindByPk (m : ModelName) (id : string) (opts : option (list IncludeSpec))
| CUpdate (m : ModelName) (instance : Row) (values : Json)
| CDestroy (m : ModelName) (instance : Row).

(** A settled promise. *)
Inductive Settled (A : Type) : Type :=
| Resolved (a : A)
| Rejected (e : Error).
Arguments Resolved {A} a.
Arguments Rejected {A} e.

(** What the client observes. *)
Inductive Outcome : Type :=
| Response (status : Z) (payload : Json)
| Unhandled (e : Error).

(** What [instance.update(values)] leaves when it resolves.  The call
    works on the instance the handler holds, so there are two rows to
    tell apart: the instance as it is after the call, and the value of
    the promise. *)
Record Updated (Store : Type) : Type := mkUpdated {
  instanceAfter : Row;
  resolved : Json;
  storeAfter : Store
}.
Arguments mkUpdated {Store} _ _ _.
Arguments instanceAfter {Store} _.
Arguments resolved {Store} _.
Arguments storeAfter {Store} _.

(** The data-access layer: the operations of a Sequelize model and of its
    instances, over a store of type [Store].  Reads leave the store as it
    is. *)
Record DataAccess (Store : Type) : Type := mkDataAccess {
  count : ModelName -> Store -> Settled nat;
  findAll : ModelName -> FindOptions -> Store -> Settled (list Row);
  findByPk : ModelName -> string -> option (list IncludeSpec) -> Store ->
             Settled (option Row);
  update : ModelName -> Row -> Json -> Store -> Settled (Updated Store);
  destroy : ModelName -> Row -> Store -> Settled Store
}.
Arguments count {Store} _ _ _.
Arguments findAll {Store} _ _ _ _.
Arguments findByPk {Store} _ _ _ _ _.
Arguments update {Store} _ _ _ _ _.
Arguments destroy {Store} _ _ _ _.

Record Run (Store : Type) : Type := mkRun {
  store : Store;
  outcome : Outcome;
  calls : list Call
}.
Arguments mkRun {Store} _ _ _.
Arguments store {Store} _.
Arguments outcome {Store} _.
Arguments calls {Store} _.

Section Execution.
Context {Store : Type} (db : DataAccess Store).

Definition logged (c : Call) (r : Run Store) : Run Store :=
  mkRun (store r) (outcome r) (c :: calls r).

(** Runs a handler to its response, threading the store through the
    calls and recording them in the order they are made. *)
Fixpoint run (h : Handler) (s : Store) : Run Store :=
  match h with
  | Respond status payload => mkRun s (Response status payload) []
  | Throw e => mkRun s (Unhandled e) []
  | AwaitCount m k kerr =>
      logged (CCount m)
        match count db m s with
        | Resolved n => run (k n) s
        | Rejected e => run (kerr e) s
        end
  | AwaitFindAll m opts k kerr =>
      logged (CFindAll m opts)
        match findAll db m opts s with
        | Resolved rows => run (k rows) s
        | Rejected e => run (kerr e) s
        end
  | AwaitFindByPk m id opts k kerr =>
      logged (CFindByPk m id opts)
        match findByPk db m id opts s with
        | Resolved r => run (k r) s
        | Rejected e => run (kerr e) s
        end
  | AwaitUpdate m inst values k kerr =>
      logged (CUpdate m inst values)
        match update db m inst values s with
        | Resolved u => run (k (instanceAfter u) (resolved u)) (storeAfter u)
        | Rejected e => run (kerr e) s
        end
  | AwaitDestroy m inst k kerr =>
      logged (CDestroy m inst)
        match destroy db m inst s with
        | Resolved s' => run (k tt) s'
        | Rejected e => run (kerr e) s
        end
  end.

End Execution.

(** ** controllers/student.controller.js *)

Definition notFound : Json := JObj [("message", JStr "Not found")].
Definition deleted : Json := JObj [("message", JStr "Deleted")].
Definition errorBody (err : Error) : Json := JObj [("error", JStr (message err))].

Definition getAllStudents (req : Request) : Handler :=
  let limit := Js.numOr (Js.parseInt (q_limit (query req))) 10 in
  let page := Js.numOr (Js.parseInt (q_page (query req))) 1 in
  AwaitCount Student
    (fun total =>
       let total := Js.ofNat total in
       (* sorting *)
       let sortby := Js.strOr (q_sortby (query req)) "name" in
       let sortField := sortby in
       let sortOrder := ASC in
       let '(sortField, sortOrder) :=
         if Js.startsWith sortby "Desc"
         then (Js.substring sortby 4, DESC)
         else (sortField, sortOrder) in
       (* populate *)
       let populate :=
         match q_populate (query req) with
         | Some p => map Js.trim (Js.split "," (Js.toLowerCase p))
         | None => []
         end in
       let include := [] in
       let include :=
         if Js.includes populate "courses" || Js.includes populate "course"
         then
           let courseInclude := mkInclude Course (Some []) None in
           let courseInclude :=
             if Js.includes populate "teacher"
             then setNested courseInclude [mkInclude Teacher None None]
             else courseInclude in
           (include ++ [courseInclude])%list
         else include in
       AwaitFindAll Student
         {| limit := limit;
            offset := Js.mul (Js.sub page (Js.Num 1)) limit;
            order := [(sortField, sortOrder)];
            include := include |}
         (fun students =>
            Respond 200
              (JObj [("meta", JObj [("totalItems", jnum total);
                                    ("page", jnum page);
                                    ("totalPages", jnum (Js.ceilDiv total limit))]);
                     ("data", JArr students)]))
         (fun err => Respond 500 (errorBody err)))
    Throw.

Definition getStudentById (req : Request) : Handler :=
  let populate :=
    match q_populate (query req) with
    | Some p => map Js.trim (Js.split "," (Js.toLowerCase p))
    | None => []
    end in
  let include := [] in
  let include :=
    if Js.includes populate "courses" || Js.includes populate "course"
    then
      let courseInclude := mkInclude Course (Some []) None in
      let courseInclude :=
        if Js.includes populate "teacher"
        then setNested courseInclude [mkInclude Teacher None None]
        else courseInclude in
      (include ++ [courseInclude])%list
    else include in
  AwaitFindByPk Student (params_id req) (Some include)
    (fun student =>
       match student with
       | None => Respond 404 notFound
       | Some student => Respond 200 student
       end)
    (fun err => Respond 500 (errorBody err)).

Definition updateStudent (req : Request) : Handler :=
  AwaitFindByPk Student (params_id req) None
    (fun student =>
       match student with
       | None => Respond 404 notFound
       | Some student =>
           AwaitUpdate Student student (body req)
             (fun student _ => Respond 200 student)
             (fun err => Respond 500 (errorBody err))
       end)
    (fun err => Respond 500 (errorBody err)).

Definition deleteStudent (req : Request) : Handler :=
  AwaitFindByPk Student (params_id req) None
    (fun student =>
       match student with
       | None => Respond 404 notFound
       | Some student =>
           AwaitDestroy Student student
             (fun _ => Respond 200 deleted)
             (fun err => Respond 500 (errorBody err))
       end)
    (fun err => Respond 500 (errorBody err)).

(** ** controllers/teacher.controller.js *)

Definition getAllTeachers (req : Request) : Handler :=
  let limit := Js.numOr (Js.parseInt (q_limit (query req))) 10 in
  let page := Js.numOr (Js.parseInt (q_page (query req))) 1 in
  AwaitCount Teacher
    (fun total =>
       let total := Js.ofNat total in
       (* sorting *)
       let sortby := Js.strOr (q_sortby (query req)) "name" in
       let sortField := sortby in
       let sortOrder := ASC in
       (* populate *)
       let populate :=
         match q_populate (query req) with
         | Some p => map Js.trim (Js.split "," (Js.toLowerCase p))
         | None => []
         end in
       let include := [] in
       let include :=
         if Js.includes populate "courses" || Js.includes populate "course"
         then
           let courseInclude := mkInclude Course None None in
           (* optionally populate students in course *)
           let courseInclude :=
             if Js.includes populate "students" || Js.includes populate "student"
             then setNested courseInclude [mkInclude Student (Some []) None]
             else courseInclude in
           (include ++ [courseInclude])%list
         else include in
       let '(sortField, sortOrder) :=
         if Js.startsWith sortby "Desc"
         then (Js.substring sortby 4, DESC)
         else (sortField, sortOrder) in
       AwaitFindAll Teacher
         {| limit := limit;
            offset := Js.mul (Js.sub page (Js.Num 1)) limit;
            order := [(sortField, sortOrder)];
            include := include |}
         (fun teachers =>
            Respond 200
              (JObj [("meta", JObj [("totalItem", jnum total);
                                    ("page", jnum page);
                                    ("totalPages", jnum (Js.ceilDiv total limit))]);
                     ("data", JArr teachers)]))
         (fun err => Respond 500 (errorBody err)))
    Throw.

Definition getTeacherById (req : Request) : Handler :=
  let populate :=
    match q_populate (query req) with
    | Some p => map Js.trim (Js.split "," (Js.toLowerCase p))
    | None => []
    end in
  let include := [] in
  let include :=
    if Js.includes populate "courses" || Js.includes populate "course"
    then
      let courseInclude := mkInclude Course None None in
      (* optionally populate students in course *)
      let courseInclude :=
        if Js.includes populate "students" || Js.includes populate "student"
        then setNested courseInclude [mkInclude Student (Some []) None]
        else courseInclude in
      (include ++ [courseInclude])%list
    else include in
  AwaitFindByPk Teacher (params_id req) (Some include)
    (fun teacher =>
       match teacher with
       | None => Respond 404 notFound
       | Some teacher => Respond 200 teacher
       end)
    (fun err => Respond 500 (errorBody err)).

Definition updateTeacher (req : Request) : Handler :=
  AwaitFindByPk Teacher (params_id req) None
    (fun teacher =>
       match teacher with
       | None => Respond 404 notFound
       | Some teacher =>
           AwaitUpdate Teacher teacher (body req)
             (fun teacher _ => Respond 200 teacher)
             (fun err => Respond 500 (errorBody err))
       end)
    (fun err => Respond 500 (errorBody err)).

Definition deleteTeacher (req : Request) : Handler :=
  AwaitFindByPk Teacher (params_id req) None
    (fun teacher =>
       match teacher with
       | None => Respond 404 notFound
       | Some teacher =>
           AwaitDestroy Teacher teacher
             (fun _ => Respond 200 deleted)
             (fun err => Respond 500 (errorBody err))
       end)
    (fun err => Respond 500 (errorBody err)).

(** ** A reference data-access layer *)

Module Memory.

(** One table per model, keyed by primary key. *)
Record Tables : Type := mkTables {
  students : gmap string Json;
  teachers : gmap string Json;
  courses : gmap string Json
}.

Definition table (m : ModelName) (s : Tables) : gmap string Json :=
  match m with
  | Student => students s
  | Teacher => teachers s
  | Course => courses s
  end.

Definition setTable (m : ModelName) (t : gmap string Json) (s : Tables) : Tables :=
  match m with
  | Student => mkTables t (teachers s) (courses s)
  | Teacher => mkTables (students s) t (courses s)
  | Course => mkTables (students s) (teachers s) t
  end.

Definition empty : Tables := mkTables ∅ ∅ ∅.

Definition primaryKey (r : Row) : option string :=
  match prop "id" r with
  | Some (JStr id) => Some id
  | _ => None
  end.

Fixpoint setField (k : string) (v : Json) (fields : list (string * Json))
  : list (string * Json) :=
  match fields with
  | [] => [(k, v)]
  | (k', v') :: rest =>
      if String.eqb k k' then (k, v) :: rest else (k', v') :: setField k v rest
  end.

Definition assign (r values : Json) : Json :=
  match r, values with
  | JObj fields, JObj changes =>
      JObj (fold_left (fun acc kv => setField (fst kv) (snd kv) acc) changes fields)
  | _, _ => r
  end.

Definition window (limit offset : Z) (rows : list Row) : list Row :=
  let n := Z.of_nat (length rows) in
  take (Z.to_nat (Z.min limit n)) (drop (Z.to_nat (Z.min offset n)) rows).

(** Modelled from the spec: the persistence layer behind [db]
    ([models/index.js] and the ORM) is not among the controllers'
    sources.  This is the contract of section 4.2 over tables held in
    memory: [findByPk] resolves to the row or to [null], [update]
    assigns the given fields, [destroy] removes the row, [count] is the
    number of rows, and [findAll] resolves to the requested window of
    the rows in key order (a [limit] or [offset] that is negative or not
    a finite number is rejected, as an SQL engine does; eager loading and
    sorting by column are not represented).  [update] changes the
    instance in place and resolves to it. *)
Definition db : DataAccess Tables := {|
  count m s := Resolved (size (table m s));
  findAll m opts s :=
    match limit opts, offset opts with
    | Js.Num l, Js.Num o =>
        if (l <? 0) || (o <? 0)
        then Rejected (mkError "negative LIMIT or OFFSET")
        else Resolved (window l o (snd <$> map_to_list (table m s)))
    | _, _ => Rejected (mkError "LIMIT or OFFSET is not a number")
    end;
  findByPk m id _ s := Resolved (table m s !! id);
  update m r values s :=
    match primaryKey r with
    | Some id =>
        let r' := assign r values in
        Resolved (mkUpdated r' r' (setTable m (<[id := r']> (table m s)) s))
    | None => Rejected (mkError "instance has no primary key")
    end;
  destroy m r s :=
    match primaryKey r with
    | Some id => Resolved (setTable m (delete id (table m s)) s)
    | None => Rejected (mkError "instance has no primary key")
    end
|}.

Definition alice : Row :=
  JObj [("id", JStr "1"); ("name", JStr "Alice"); ("email", JStr "alice@school.example")].

Definition turing : Row :=
  JObj [("id", JStr "7"); ("name", JStr "Turing"); ("department", JStr "Mathematics")].

Definition school : Tables := mkTables {[ "1" := alice ]} {[ "7" := turing ]} ∅.

End Memory.

Definition noQuery : Query := mkQuery None None None None.
Definition get (q : Query) : Request := mkRequest q "" JNull.
Definition byId (id : string) (q : Query) (b : Json) : Request := mkRequest q id b.

(** ** Routes and observations *)

(** The two resources, [/students] and [/teachers]. *)
Inductive Entity : Type := Students | Teachers.

Definition modelOf (e : Entity) : ModelName :=
  match e with Students => Student | Teachers => Teacher end.

(** GET /{entity} *)
Definition getAll (e : Entity) : Request -> Handler :=
  match e with Students => getAllStudents | Teachers => getAllTeachers end.

(** GET /{entity}/{id} *)
Definition getById (e : Entity) : Request -> Handler :=
  match e with Students => getStudentById | Teachers => getTeacherById end.

(** PUT /{entity}/{id} *)
Definition updateById (e : Entity) : Request -> Handler :=
  match e with Students => updateStudent | Teachers => updateTeacher end.

(** DELETE /{entity}/{id} *)
Definition deleteById (e : Entity) : Request -> Handler :=
  match e with Students => deleteStudent | Teachers => deleteTeacher end.

(** The options of the [findAll] calls of a run, in order. *)
Definition findAllCalls {Store : Type} (r : Run Store) : list FindOptions :=
  flat_map (fun c => match c with CFindAll _ o => [o] | _ => [] end) (calls r).

(** The options of the [findByPk] calls of a run, in order. *)
Definition findByPkCalls {Store : Type} (r : Run Store)
  : list (option (list IncludeSpec)) :=
  flat_map (fun c => match c with CFindByPk _ _ o => [o] | _ => [] end) (calls r).

(** [payload.meta[k]] of a response. *)
Definition meta (k : string) (o : Outcome) : option Json :=
  match o with
  | Response _ payload =>
      match prop "meta" payload with
      | Some m => prop k m
      | None => None
      end
  | Unhandled _ => None
  end.

(** [payload.data] of a response. *)
Definition data (o : Outcome) : option Json :=
  match o with
  | Response _ payload => prop "data" payload
  | Unhandled _ => None
  end.

Definition status (o : Outcome) : option Z :=
  match o with
  | Response st _ => Some st
  | Unhandled _ => None
  end.

(** The populate tokens: the value lower-cased, split at commas, each
    piece trimmed. *)
Definition tokens (populate : string) : list string :=
  map Js.trim (Js.split "," (Js.toLowerCase populate)).

Definition withPopulate (populate : option string) (q : Query) : Query :=
  mkQuery (q_limit q) (q_page q) (q_sortby q) populate.

(** The include graphs the controllers can build. *)
Definition courseOfStudent : list IncludeSpec :=
  [mkInclude Course (Some []) None].
Definition courseOfStudentWithTeacher : list IncludeSpec :=
  [mkInclude Course (Some []) (Some [mkInclude Teacher None None])].
Definition courseOfTeacher : list IncludeSpec :=
  [mkInclude Course None None].
Definition courseOfTeacherWithStudents : list IncludeSpec :=
  [mkInclude Course None (Some [mkInclude Student (Some []) None])].

(** What a list run and a by-id run hand to the data-access layer as
    include graph. *)
Definition sends {Store : Type} (rl ri : Run Store) (g : list IncludeSpec) : Prop :=
  Forall (fun o => include o = g) (findAllCalls rl)
  /\ findByPkCalls ri = [Some g].

(** No row of model [m] has primary key [id]. *)
Definition absent {Store : Type} (db : DataAccess Store) (m : ModelName) (id : string) (s : Store) : Prop :=
  forall o, findByPk db m id o s = Resolved None.

(** Some row of model [m] has primary key [id]. *)
Definition present {Store : Type} (db : DataAccess Store) (m : ModelName) (id : string) (s : Store) : Prop :=
  forall o, exists row, findByPk db m id o s = Resolved (Some row).

(** [instance.update(values)] goes through for the row found under [id]. *)
Definition updates {Store : Type} (db : DataAccess Store) (m : ModelName) (id : string) (values : Json) (s : Store) : Prop :=
  forall row, findByPk db m id None s = Resolved (Some row) ->
              exists res, update db m row values s = Resolved res.

(** [instance.destroy()] goes through for the row found under [id]. *)
Definition destroys {Store : Type} (db : DataAccess Store) (m : ModelName) (id : string) (s : Store) : Prop :=
  forall row, findByPk db m id None s = Resolved (Some row) ->
              exists s', destroy db m row s = Resolved s'.

(** ** POST /{entity} *)

(** A handler that starts by awaiting [Model.create(values)]; what follows
    the call is an ordinary handler. *)
Inductive Creation : Type :=
| AwaitCreate (m : ModelName) (values : Json)
    (k : Row -> Handler) (kerr : Error -> Handler).

Definition createStudent (req : Request) : Creation :=
  AwaitCreate Student (body req)
    (fun student => Respond 201 student)
    (fun err => Respond 500 (errorBody err)).

Definition createTeacher (req : Request) : Creation :=
  AwaitCreate Teacher (body req)
    (fun teacher => Respond 201 teacher)
    (fun err => Respond 500 (errorBody err)).

(** POST /{entity} *)
Definition createOne (e : Entity) : Request -> Creation :=
  match e with Students => createStudent | Teachers => createTeacher end.

(** [Model.create]: resolves to the new instance and the store that
    holds it. *)
Definition Create (Store : Type) : Type :=
  ModelName -> Json -> Store -> Settled (Row * Store).

(** Runs a creation: the [create] call first, then the rest as [run]
    does.  [calls] lists what follows the [create] call. *)
Definition runCreate {Store : Type} (db : DataAccess Store) (create : Create Store)
    (c : Creation) (s : Store) : Run Store :=
  match c with
  | AwaitCreate m values k kerr =>
      match create m values s with
      | Resolved (row, s') => run db (k row) s'
      | Rejected e => run db (kerr e) s
      end
  end.

(** ** More data-access layers, for concrete runs *)

(** Modelled from the spec: [create] of section 4.2 over the tables of
    [Memory] ([models/index.js] is not among the sources).  The values
    carry the primary key; a missing or an already used key is the
    constraint violation the section names. *)
Definition memoryCreate : Create Memory.Tables :=
  fun m values s =>
    match Memory.primaryKey values with
    | Some id =>
        match Memory.table m s !! id with
        | Some _ => Rejected (mkError "Validation error")
        | None =>
            Resolved (values, Memory.setTable m (<[id := values]> (Memory.table m s)) s)
        end
    | None => Rejected (mkError "notNull Violation")
    end.

(** A database that cannot be reached: every call is rejected. *)
Definition unreachable : Error := mkError "connect ECONNREFUSED".

Definition offline : DataAccess unit := {|
  count _ _ := Rejected unreachable;
  findAll _ _ _ := Rejected unreachable;
  findByPk _ _ _ _ := Rejected unreachable;
  update _ _ _ _ := Rejected unreachable;
  destroy _ _ _ := Rejected unreachable
|}.

(** The tables of [Memory], with every write rejected. *)
Definition readOnlyError : Error := mkError "attempt to write a readonly database".

Definition readOnly : DataAccess Memory.Tables := {|
  count := count Memory.db;
  findAll := findAll Memory.db;
  findByPk := findByPk Memory.db;
  update _ _ _ _ := Rejected readOnlyError;
  destroy _ _ _ := Rejected readOnlyError
|}.

(** The tables of [Memory], with an [update] that writes the row and
    resolves to it but leaves the instance the caller holds as it was. *)
Definition detached : DataAccess Memory.Tables := {|
  count := count Memory.db;
  findAll := findAll Memory.db;
  findByPk := findByPk Memory.db;
  update m r values s :=
    match update Memory.db m r values s with
    | Resolved u => Resolved (mkUpdated r (resolved u) (storeAfter u))
    | Rejected e => Rejected e
    end;
  destroy := destroy Memory.db
|}.

(** ** More observations *)

(** The response was sent, with one of the given status codes. *)
Definition answers (codes : list Z) (o : Outcome) : Prop :=
  match o with
  | Response st _ => In st codes
  | Unhandled _ => False
  end.

(** The request asks for the Course relation. *)
Definition asksCourse (p : string) : Prop :=
  In "course" (tokens p) \/ In "courses" (tokens p).

(** The request asks for the relation nested in Course: Teacher for a
    student, Student for a teacher. *)
Definition asksNested (e : Entity) (p : string) : Prop :=
  match e with
  | Students => In "teacher" (tokens p)
  | Teachers => In "student" (tokens p) \/ In "students" (tokens p)
  end.

(** The include graphs of an entity: Course alone, and Course with its
    nested relation. *)
Definition courseAlone (e : Entity) : list IncludeSpec :=
  match e with
  | Students => courseOfStudent
  | Teachers => courseOfTeacher
  end.

Definition courseNested (e : Entity) : list IncludeSpec :=
  match e with
  | Students => courseOfStudentWithTeacher
  | Teachers => courseOfTeacherWithStudents
  end.

(** Decimal numerals: the character of a digit, and the string of a list
    of digits. *)
Definition digitChar (d : Z) : ascii := ascii_of_N (Z.to_N (48 + d)).

Definition numeral (ds : list Z) : string :=
  fold_right (fun d s => String (digitChar d) s) EmptyString ds.

Definition isDecimal (ds : list Z) : Prop :=
  ds <> [] /\ Forall (fun d => 0 <= d < 10) ds.

(** What may follow a numeral without being read as part of it: nothing,
    or a character that is neither a decimal digit nor the [x] of a
    hexadecimal prefix. *)
Definition endsNumeral (rest : string) : Prop :=
  match rest with
  | EmptyString => True
  | String c _ =>
      (forall d, Js.digitValue c = Some d -> 10 <= d)
      /\ c <> "x"%char /\ c <> "X"%char
  end.

Fixpoint allWhiteSpace (w : string) : bool :=
  match w with
  | EmptyString => true
  | String c r => Js.isWhiteSpace c && allWhiteSpace r
  end.

(** An optional sign in front of a numeral. *)
Inductive Sign : Type := NoSign | Plus | Minus.

Definition signString (sg : Sign) : string :=
  match sg with NoSign => "" | Plus => "+" | Minus => "-" end.

Definition signValue (sg : Sign) : Z :=
  match sg with Minus => -1 | _ => 1 end.

(** [Array.prototype.join] with a one-character separator, the inverse of
    [Js.split]. *)
Fixpoint join (sep : ascii) (pieces : list string) : string :=
  match pieces with
  | [] => EmptyString
  | [piece] => piece
  | piece :: rest => piece ++ String sep (join sep rest)
  end.

(** The characters of a string. *)
Fixpoint chars (s : string) : list ascii :=
  match s with
  | EmptyString => []
  | String c r => c :: chars r
  end.

(** ** Whole runs *)

(** One run [r] of a list handler on model [m] in store [s], from the
    first call to the response.  When [count] is rejected nothing else
    happens and no response is sent.  When it resolves there is exactly
    one [findAll] call; its options satisfy [P]; the response is 200 with
    a payload that satisfies [Q] when that call resolves, and 500 with
    the error's message when it is rejected.  The store is as it was. *)
Definition listRun {Store : Type} (db : DataAccess Store) (m : ModelName)
    (s : Store) (r : Run Store)
    (P : FindOptions -> Prop) (Q : FindOptions -> Json -> Prop) : Prop :=
  match count db m s with
  | Rejected err => r = mkRun s (Unhandled err) [CCount m]
  | Resolved _ =>
      exists o,
        calls r = [CCount m; CFindAll m o]
        /\ store r = s
        /\ P o
        /\ match findAll db m o s with
           | Resolved _ =>
               exists payload, outcome r = Response 200 payload /\ Q o payload
           | Rejected err => outcome r = Response 500 (errorBody err)
           end
  end.

(** [payload.meta[k]] of a payload. *)
Definition metaOf (k : string) (payload : Json) : option Json :=
  meta k (Response 200 payload).

(** The list run [rl], made in store [s], hands [findAll] the include
    graph [g] in the one call it makes, and the by-id run [ri] hands
    [findByPk] the same. *)
Definition handsOver {Store : Type} (db : DataAccess Store) (m : ModelName)
    (s : Store) (rl ri : Run Store) (g : list IncludeSpec) : Prop :=
  listRun db m s rl (fun o => include o = g) (fun _ _ => True)
  /\ findByPkCalls ri = [Some g].

(** The largest integer up to which every integer is a double. *)
Definition maxExact : Z := 9007199254740992.

(** ** The built-ins at a few inputs *)

Example parseInt_25 : Js.parseInt (Some " 25px") = Js.Num 25.
Proof. reflexivity. Qed.
Example parseInt_neg : Js.parseInt (Some "-5") = Js.Num (-5).
Proof. reflexivity. Qed.
Example parseInt_hex : Js.parseInt (Some "0x1F") = Js.Num 31.
Proof. reflexivity. Qed.
Example parseInt_abc : Js.parseInt (Some "abc") = Js.NaN.
Proof. reflexivity. Qed.
Example parseInt_undefined : Js.parseInt None = Js.NaN.
Proof. reflexivity. Qed.
Example split_ex : map Js.trim (Js.split "," (Js.toLowerCase "Course, Teacher ")) = ["course"; "teacher"].
Proof. reflexivity. Qed.
Example split_empty : Js.split "," "" = [""].
Proof. reflexivity. Qed.
Example split_trailing : Js.split "," "a,,b," = ["a"; ""; "b"; ""].
Proof. reflexivity. Qed.
Example trim_ex : Js.trim "  a b  " = "a b".
Proof. reflexivity. Qed.
Example substring_ex : Js.substring "DescName" 4 = "Name".
Proof. reflexivity. Qed.

(** ** Built-ins: basic facts *)

Lemma includes_In (xs : list string) (x : string) :
  Js.includes xs x = true <-> In x xs.
Proof.
  unfold Js.includes. rewrite existsb_exists. split.
  - intros [y [Hy Heq]]. apply String.eqb_eq in Heq. now subst.
  - intros H. exists x. split; [exact H | apply String.eqb_refl].
Qed.

Lemma includes_not_In (xs : list string) (x : string) :
  Js.includes xs x = false <-> ~ In x xs.
Proof.
  rewrite <- includes_In. destruct (Js.includes xs x); split; congruence.
Qed.

Lemma parseInt_absent : Js.parseInt None = Js.NaN.
Proof. reflexivity. Qed.

Lemma unparsed (v : option string) :
  v = None \/ Js.parseInt v = Js.NaN -> Js.parseInt v = Js.NaN.
Proof. intros [-> | H]; [apply parseInt_absent | exact H]. Qed.

Lemma double_exact (z : Z) : Z.abs z <= maxExact -> Js.double z = Js.Num z.
Proof.
  unfold maxExact. intros H. unfold Js.double.
  change (2 ^ 53) with 9007199254740992.
  destruct (Z.ltb_spec (Z.abs z) 9007199254740992); [reflexivity |].
  assert (E : z = 9007199254740992 \/ z = - 9007199254740992) by lia.
  destruct E as [-> | ->]; vm_compute; reflexivity.
Qed.

Lemma numOr_nonzero (z d : Z) : z <> 0 -> Js.numOr (Js.Num z) d = Js.Num z.
Proof.
  intros H. unfold Js.numOr, Js.truthy. destruct (Z.eqb_spec z 0); [congruence |].
  reflexivity.
Qed.

Lemma numOr_zero (d : Z) : Js.numOr (Js.Num 0) d = Js.Num d.
Proof. reflexivity. Qed.

Lemma numOr_never_zero (n : Js.Number) (d : Z) :
  d <> 0 -> Js.numOr n d <> Js.Num 0 /\ Js.numOr n d <> Js.NaN.
Proof.
  intros Hd. destruct n as [| b | z]; cbn; try (split; congruence).
  unfold Js.numOr, Js.truthy. destruct (Z.eqb_spec z 0); cbn; split; congruence.
Qed.

Lemma startsWith_Desc (v : string) :
  Js.startsWith v "Desc" = true <-> exists rest, v = "Desc" ++ rest.
Proof.
  unfold Js.startsWith. rewrite String.prefix_correct. split.
  - destruct v as [|c1 [|c2 [|c3 [|c4 rest]]]]; cbn; try discriminate.
    intros H. exists rest. injection H as -> -> -> -> _. reflexivity.
  - intros [rest ->]. cbn. now destruct rest.
Qed.

(** ** GET /{entity}: pagination, sorting *)

(** Reduction that leaves the arithmetic and the sort key folded. *)
Ltac lcbn :=
  cbn -[Js.numOr Js.parseInt Js.mul Js.sub Js.ceilDiv Js.ofNat Js.double
        Js.startsWith Js.strOr Js.includes tokens].

Ltac solve_Forall :=
  repeat first [apply Forall_nil_2 | apply Forall_cons_2]; try reflexivity.

(** Opens [listRun] on a run of a list handler: after [pre], which may
    rewrite with what is known of the request, two goals are left, the
    property of the options and the property of the payload (or nothing
    when [findAll] is rejected). *)
Ltac open_listRun_at db s pre :=
  unfold listRun, metaOf, meta;
  unfold getAll, getAllStudents, getAllTeachers;
  cbn [run modelOf];
  (destruct (count db _ s); lcbn; [| reflexivity]);
  pre;
  try (destruct (Js.startsWith _ _) eqn:?Hsw; lcbn);
  eexists;
  (split; [destruct (findAll db _ _ s); reflexivity |]);
  (split; [destruct (findAll db _ _ s); reflexivity |]);
  (split;
   [| destruct (findAll db _ _ s);
      [eexists; split; [reflexivity |] | reflexivity]]);
  lcbn.

Ltac open_listRun db s e pre := destruct e; open_listRun_at db s pre.

Section ListRequests.
Context {Store : Type} (db : DataAccess Store).

(** Once [count] has resolved the handler issues exactly one [findAll]. *)
Lemma getAll_findAll_once (s : Store) (e : Entity) (req : Request) (n : nat) :
  count db (modelOf e) s = Resolved n ->
  length (findAllCalls (run db (getAll e req) s)) = 1%nat.
Proof.
  intros Hc.
  destruct e; unfold getAll, getAllStudents, getAllTeachers, findAllCalls;
    cbn [run]; cbn in Hc; rewrite Hc; lcbn;
    destruct (Js.startsWith _ _); lcbn; destruct (findAll db _ _ s); reflexivity.
Qed.

(** What [listRun] gives once [count] is known to resolve. *)
Lemma listRun_resolved (m : ModelName) (s : Store) (r : Run Store) (n : nat)
    (P : FindOptions -> Prop) (Q : FindOptions -> Json -> Prop) :
  count db m s = Resolved n ->
  listRun db m s r P Q ->
  exists o,
    calls r = [CCount m; CFindAll m o] /\ P o
    /\ forall rows, findAll db m o s = Resolved rows ->
         exists payload, outcome r = Response 200 payload /\ Q o payload.
Proof.
  unfold listRun. intros -> (o & Hc & _ & HP & HQ).
  exists o. repeat split; [exact Hc | exact HP |].
  intros rows Hf. now rewrite Hf in HQ.
Qed.

(** C1.  On a list request for students or teachers there is, once
    [count] has resolved, exactly one [findAll] call.  A [limit] that is
    absent or that [parseInt] does not read as a number resolves to 10:
    that is the limit of the call.  A [page] that is absent or not a
    number resolves to 1: the offset of the call is [(1 - 1) * limit],
    and the page reported in the 200 response is 1. *)
Theorem unparsed_limit_and_page_default
    (s : Store) (e : Entity) (req : Request) :
  listRun db (modelOf e) s (run db (getAll e req) s)
    (fun o =>
       (q_limit (query req) = None \/ Js.parseInt (q_limit (query req)) = Js.NaN ->
        limit o = Js.Num 10)
       /\ (q_page (query req) = None \/ Js.parseInt (q_page (query req)) = Js.NaN ->
           offset o = Js.mul (Js.sub (Js.Num 1) (Js.Num 1)) (limit o)))
    (fun _ payload =>
       q_page (query req) = None \/ Js.parseInt (q_page (query req)) = Js.NaN ->
       metaOf "page" payload = Some (JNum 1)).
Proof.
  open_listRun db s e idtac.
  all: try (split; intros H%unparsed; rewrite H; reflexivity).
  all: intros H%unparsed; rewrite H; reflexivity.
Qed.

(** C2, as the code has it.  When [page] parses to [p >= 1] and [limit]
    to [l >= 1] and [(p - 1) * l] is at most 2^53, the one [findAll] call
    of a list request carries [offset = (p - 1) * l] and [limit = l].
    (Above 2^53 the product is rounded to a double.) *)
Theorem offset_of_page_and_limit
    (s : Store) (e : Entity) (req : Request) (p l : Z) :
  Js.parseInt (q_page (query req)) = Js.Num p ->
  Js.parseInt (q_limit (query req)) = Js.Num l ->
  1 <= p -> 1 <= l ->
  (p - 1) * l <= maxExact ->
  listRun db (modelOf e) s (run db (getAll e req) s)
    (fun o => offset o = Js.Num ((p - 1) * l) /\ limit o = Js.Num l)
    (fun _ _ => True).
Proof.
  intros Hp Hl Hp1 Hl1 Hsafe.
  assert (Ep : Js.numOr (Js.Num p) 1 = Js.Num p) by (apply numOr_nonzero; lia).
  assert (El : Js.numOr (Js.Num l) 10 = Js.Num l) by (apply numOr_nonzero; lia).
  assert (Es : Js.sub (Js.Num p) (Js.Num 1) = Js.Num (p - 1))
    by (apply double_exact; unfold maxExact in *; nia).
  assert (Em : Js.mul (Js.Num (p - 1)) (Js.Num l) = Js.Num ((p - 1) * l))
    by (apply double_exact; unfold maxExact in *; nia).
  open_listRun db s e ltac:(rewrite ?Hp, ?Hl, ?Ep, ?El, ?Es, ?Em).
  all: auto.
Qed.

(** C6, as the code has it.  There is no clamping.  A [limit] that
    parses to [l <> 0] is the limit of the [findAll] call, and a [page]
    that parses to [p <> 0] is the page reported and the page of the
    offset, [(p - 1) * limit] in double arithmetic, negative values
    included: while the product is within 2^53 the offset is exactly
    [(p - 1) * l], which is negative when [p < 0 < l] or when [l < 0] and
    [1 < p].  A parsed zero is falsy and is replaced by the default: a
    [limit] that parses to 0 becomes 10, a [page] that parses to 0
    becomes 1. *)
Theorem nonzero_page_and_limit_unclamped
    (s : Store) (e : Entity) (req : Request) :
  listRun db (modelOf e) s (run db (getAll e req) s)
    (fun o =>
       (forall l, Js.parseInt (q_limit (query req)) = Js.Num l -> l <> 0 ->
          limit o = Js.Num l)
       /\ (Js.parseInt (q_limit (query req)) = Js.Num 0 -> limit o = Js.Num 10)
       /\ (forall p, Js.parseInt (q_page (query req)) = Js.Num p -> p <> 0 ->
             offset o = Js.mul (Js.sub (Js.Num p) (Js.Num 1)) (limit o))
       /\ (Js.parseInt (q_page (query req)) = Js.Num 0 ->
             offset o = Js.mul (Js.sub (Js.Num 1) (Js.Num 1)) (limit o))
       /\ (forall p l,
             Js.parseInt (q_page (query req)) = Js.Num p ->
             Js.parseInt (q_limit (query req)) = Js.Num l ->
             p <> 0 -> l <> 0 -> Z.abs ((p - 1) * l) <= maxExact ->
             offset o = Js.Num ((p - 1) * l)
             /\ (p < 0 < l \/ (l < 0 /\ 1 < p) -> (p - 1) * l < 0)))
    (fun _ payload =>
       (forall p, Js.parseInt (q_page (query req)) = Js.Num p -> p <> 0 ->
          metaOf "page" payload = Some (JNum p))
       /\ (Js.parseInt (q_page (query req)) = Js.Num 0 ->
           metaOf "page" payload = Some (JNum 1))).
Proof.
  assert (Hexact : forall p l, p <> 0 -> l <> 0 ->
            Z.abs ((p - 1) * l) <= maxExact ->
            Js.mul (Js.sub (Js.numOr (Js.Num p) 1) (Js.Num 1))
                   (Js.numOr (Js.Num l) 10)
            = Js.Num ((p - 1) * l)).
  { intros p l Hp0 Hl0 Hsafe.
    rewrite !numOr_nonzero by assumption.
    assert (Es : Js.sub (Js.Num p) (Js.Num 1) = Js.Num (p - 1))
      by (apply double_exact; unfold maxExact in *; nia).
    rewrite Es. apply double_exact. exact Hsafe. }
  clear - Hexact.
  open_listRun db s e idtac.
  all: repeat split.
  all: try (intros v Hv Hv0; rewrite ?Hv, ?numOr_nonzero by assumption;
            reflexivity).
  all: try (intros Hz; rewrite ?Hz; reflexivity).
  all: try match goal with
         | Hp : Js.parseInt (q_page _) = _,
           Hl : Js.parseInt (q_limit _) = _ |- Js.mul _ _ = _ =>
             rewrite Hp, Hl; apply Hexact; assumption
         end.
  all: intros; nia.
Qed.

(** C3, as the code has it.  A [sortby] that starts with the four
    characters [Desc] is stripped of them and sorts descending; any
    other non-empty value is the sort field as it stands, ascending; an
    absent or empty [sortby] sorts by [name], ascending.  In each case
    that is the one order entry of the [findAll] call the handler makes
    once [count] has resolved. *)
Theorem sort_field_and_order (s : Store) (e : Entity) (req : Request) :
  let r := run db (getAll e req) s in
  (forall rest, q_sortby (query req) = Some ("Desc" ++ rest) ->
     listRun db (modelOf e) s r
       (fun o => order o = [(rest, DESC)]) (fun _ _ => True))
  /\
  (forall v, q_sortby (query req) = Some v -> v <> "" ->
     (forall rest, v <> "Desc" ++ rest) ->
     listRun db (modelOf e) s r
       (fun o => order o = [(v, ASC)]) (fun _ _ => True))
  /\
  (q_sortby (query req) = None \/ q_sortby (query req) = Some "" ->
     listRun db (modelOf e) s r
       (fun o => order o = [("name", ASC)]) (fun _ _ => True)).
Proof.
  cbv zeta. split; [| split].
  - intros rest Hs.
    assert (E1 : Js.strOr (q_sortby (query req)) "name" = "Desc" ++ rest)
      by (rewrite Hs; reflexivity).
    assert (E2 : Js.startsWith ("Desc" ++ rest) "Desc" = true)
      by (apply startsWith_Desc; eauto).
    open_listRun db s e ltac:(rewrite ?E1, ?E2; lcbn); auto.
  - intros v Hs Hne Hnd.
    assert (E1 : Js.strOr (q_sortby (query req)) "name" = v)
      by (rewrite Hs; destruct v; [congruence | reflexivity]).
    assert (E2 : Js.startsWith v "Desc" = false).
    { destruct (Js.startsWith v "Desc") eqn:E; [| reflexivity].
      apply startsWith_Desc in E as [rest ->]. now destruct (Hnd rest). }
    open_listRun db s e ltac:(rewrite ?E1, ?E2; lcbn); auto.
  - intros Hs.
    assert (E1 : Js.strOr (q_sortby (query req)) "name" = "name")
      by (destruct Hs as [-> | ->]; reflexivity).
    assert (E2 : Js.startsWith "name" "Desc" = false) by reflexivity.
    open_listRun db s e ltac:(rewrite ?E1, ?E2; lcbn); auto.
Qed.

End ListRequests.

(** ** populate: the include graph *)

Lemma includes_either (xs : list string) (x y : string) :
  In y xs \/ In x xs -> Js.includes xs x || Js.includes xs y = true.
Proof.
  intros [H | H]; apply includes_In in H; rewrite H;
    [apply orb_true_r | reflexivity].
Qed.

Lemma includes_neither (xs : list string) (x y : string) :
  ~ In y xs -> ~ In x xs -> Js.includes xs x || Js.includes xs y = false.
Proof.
  intros Hy%includes_not_In Hx%includes_not_In. now rewrite Hx, Hy.
Qed.

(** One run of a list handler and of a by-id handler whose populate
    tokens are [tokens p]. *)
Ltac run_populate db Hq p :=
  cbv zeta;
  unfold getAll, getById, getAllStudents, getStudentById,
    getAllTeachers, getTeacherById, findAllCalls, findByPkCalls;
  rewrite ?Hq; fold (tokens p); cbn [run];
  repeat match goal with
    | |- context [count db ?m ?s] => destruct (count db m s)
    | |- context [findByPk db ?m ?i ?o ?s] => destruct (findByPk db m i o s) as [[?|]|]
    end;
  cbn -[tokens Js.includes];
  repeat match goal with
    | |- context [Js.startsWith ?a ?b] => destruct (Js.startsWith a b)
    end;
  cbn -[tokens Js.includes];
  repeat match goal with
    | |- context [findAll db ?m ?o ?s] => destruct (findAll db m o s)
    end;
  cbn -[tokens Js.includes].

Section Populate.
Context {Store : Type} (db : DataAccess Store).

(** C4.  On a student request with a [populate] parameter: a [course]
    or [courses] token makes the include graph the Course relation
    (join attributes excluded); with a [teacher] token as well, Teacher
    is nested inside it; without one, nothing is nested; and with no
    course token the graph is empty, whatever else is asked for.  The
    list handler hands that graph to the one [findAll] call it makes once
    [count] has resolved, the by-id handler to its [findByPk] call. *)
Theorem student_include_graph (s1 s2 : Store) (req : Request) (p : string) :
  q_populate (query req) = Some p ->
  let rl := run db (getAllStudents req) s1 in
  let ri := run db (getStudentById req) s2 in
  ((In "course" (tokens p) \/ In "courses" (tokens p)) ->
   In "teacher" (tokens p) ->
   handsOver db Student s1 rl ri courseOfStudentWithTeacher)
  /\
  ((In "course" (tokens p) \/ In "courses" (tokens p)) ->
   ~ In "teacher" (tokens p) ->
   handsOver db Student s1 rl ri courseOfStudent)
  /\
  (~ In "course" (tokens p) -> ~ In "courses" (tokens p) ->
   handsOver db Student s1 rl ri []).
Proof.
  intros Hq. unfold handsOver. split; [| split].
  - intros Ec%includes_either Et%includes_In. split.
    + open_listRun_at db s1 ltac:(rewrite ?Hq; fold (tokens p); rewrite ?Ec, ?Et);
        auto.
    + run_populate db Hq p; rewrite Ec, Et; reflexivity.
  - intros Ec%includes_either Et%includes_not_In. split.
    + open_listRun_at db s1 ltac:(rewrite ?Hq; fold (tokens p); rewrite ?Ec, ?Et);
        auto.
    + run_populate db Hq p; rewrite Ec, Et; reflexivity.
  - intros H1 H2. pose proof (includes_neither _ _ _ H1 H2) as Ec. split.
    + open_listRun_at db s1 ltac:(rewrite ?Hq; fold (tokens p); rewrite ?Ec);
        auto.
    + run_populate db Hq p; rewrite Ec; reflexivity.
Qed.

(** The teacher handlers, for comparison: Course is included on a
    [course] or [courses] token, with Student (join attributes excluded)
    nested on a [student] or [students] token. *)
Lemma teacher_include_graph (s1 s2 : Store) (req : Request) (p : string) :
  q_populate (query req) = Some p ->
  In "course" (tokens p) \/ In "courses" (tokens p) ->
  let rl := run db (getAllTeachers req) s1 in
  let ri := run db (getTeacherById req) s2 in
  (In "student" (tokens p) \/ In "students" (tokens p) ->
   sends rl ri courseOfTeacherWithStudents)
  /\
  (~ In "student" (tokens p) -> ~ In "students" (tokens p) ->
   sends rl ri courseOfTeacher).
Proof.
  intros Hq Ec%includes_either. unfold sends. split.
  - intros Es%includes_either.
    run_populate db Hq p; rewrite Ec, Es; split; solve_Forall.
  - intros H1 H2. pose proof (includes_neither _ _ _ H1 H2) as Es.
    run_populate db Hq p; rewrite Ec, Es; split; solve_Forall.
Qed.

(** C5.  On a teacher request whose tokens name [student] or
    [students] but neither [course] nor [courses], the include graph is
    empty: the nested relation is not loaded without its parent. *)
Theorem teacher_students_without_course
    (s1 s2 : Store) (req : Request) (p : string) :
  q_populate (query req) = Some p ->
  In "student" (tokens p) \/ In "students" (tokens p) ->
  ~ In "course" (tokens p) -> ~ In "courses" (tokens p) ->
  sends (run db (getAllTeachers req) s1) (run db (getTeacherById req) s2) [].
Proof.
  intros Hq _ H1 H2. pose proof (includes_neither _ _ _ H1 H2) as Ec.
  unfold sends.
  run_populate db Hq p; rewrite Ec; split; solve_Forall.
Qed.

(** C10.  For either entity and any [populate] value, absent included,
    the by-id handler hands [findByPk] exactly the include graph that
    the list handler hands the [findAll] call it makes once [count] has
    resolved; nothing else of the two requests matters. *)
Theorem list_and_by_id_include_agree
    (s1 s2 : Store) (e : Entity) (populate : option string)
    (q1 q2 : Query) (id1 id2 : string) (b1 b2 : Json) :
  let rl := run db (getAll e (mkRequest (withPopulate populate q1) id1 b1)) s1 in
  let ri := run db (getById e (mkRequest (withPopulate populate q2) id2 b2)) s2 in
  exists g, handsOver db (modelOf e) s1 rl ri g.
Proof.
  cbv zeta. unfold handsOver. destruct e; eexists.
  - split.
    + open_listRun_at db s1 idtac; first [reflexivity | exact I].
    + unfold getById, getStudentById, findByPkCalls. cbn [run].
      destruct (findByPk db _ _ _ s2) as [[?|]|]; reflexivity.
  - split.
    + open_listRun_at db s1 idtac; first [reflexivity | exact I].
    + unfold getById, getTeacherById, findByPkCalls. cbn [run].
      destruct (findByPk db _ _ _ s2) as [[?|]|]; reflexivity.
Qed.

End Populate.

(** ** GET, PUT, DELETE /{entity}/{id} *)

Section ById.
Context {Store : Type} (db : DataAccess Store).

(** C8, as the code has it.  For an id that is not in the store, GET,
    PUT and DELETE by id answer 404 with [{message: "Not found"}] and
    leave the store as it is.  For an id that is in the store, GET
    answers 200; PUT and DELETE answer 200 when the write they issue goes
    through, and 500 with [{error: <message>}] when it is rejected. *)
Theorem by_id_404_or_200 (s : Store) (e : Entity) (req : Request) :
  let m := modelOf e in
  let id := params_id req in
  (absent db m id s ->
     (outcome (run db (getById e req) s) = Response 404 notFound
      /\ store (run db (getById e req) s) = s)
     /\ (outcome (run db (updateById e req) s) = Response 404 notFound
         /\ store (run db (updateById e req) s) = s)
     /\ (outcome (run db (deleteById e req) s) = Response 404 notFound
         /\ store (run db (deleteById e req) s) = s))
  /\
  (present db m id s ->
     status (outcome (run db (getById e req) s)) = Some 200
     /\ (updates db m id (body req) s ->
         status (outcome (run db (updateById e req) s)) = Some 200)
     /\ (destroys db m id s ->
         outcome (run db (deleteById e req) s) = Response 200 deleted)
     /\ (forall row err,
           findByPk db m id None s = Resolved (Some row) ->
           update db m row (body req) s = Rejected err ->
           outcome (run db (updateById e req) s) = Response 500 (errorBody err))
     /\ (forall row err,
           findByPk db m id None s = Resolved (Some row) ->
           destroy db m row s = Rejected err ->
           outcome (run db (deleteById e req) s) = Response 500 (errorBody err))).
Proof.
  cbv zeta. split.
  - intros Ha. unfold absent in Ha.
    destruct e; cbn [modelOf] in Ha;
      unfold getById, updateById, deleteById, getStudentById, getTeacherById,
        updateStudent, updateTeacher, deleteStudent, deleteTeacher;
      cbn [run]; rewrite !Ha; cbn; auto.
  - intros Hp. unfold present in Hp.
    destruct e; cbn [modelOf] in *;
      unfold getById, updateById, deleteById, getStudentById, getTeacherById,
        updateStudent, updateTeacher, deleteStudent, deleteTeacher;
      cbn [run].
    all: destruct (Hp None) as [row Hrow]; rewrite Hrow.
    all: split; [ match goal with
                  | |- context [findByPk db ?m ?i (Some ?g) ?s0] =>
                      destruct (Hp (Some g)) as [row' ->]
                  end; reflexivity |].
    all: split; [intros Hw; destruct (Hw row Hrow) as [res Hres];
                 cbn; rewrite Hres; reflexivity |].
    all: split; [intros Hw; destruct (Hw row Hrow) as [res Hres];
                 cbn; rewrite Hres; reflexivity |].
    all: split; intros row0 err Hrow0 Hrej;
      assert (row0 = row) by congruence; subst row0;
      cbn; rewrite Hrej; reflexivity.
Qed.

(** X10.  The other branch of the same handlers: a write that is rejected is
    answered with 500 and the error message, and the store is kept. *)
Lemma rejected_write_500 (s : Store) (e : Entity) (req : Request)
    (row : Row) (err : Error) :
  findByPk db (modelOf e) (params_id req) None s = Resolved (Some row) ->
  (update db (modelOf e) row (body req) s = Rejected err ->
     outcome (run db (updateById e req) s) = Response 500 (errorBody err)
     /\ store (run db (updateById e req) s) = s)
  /\
  (destroy db (modelOf e) row s = Rejected err ->
     outcome (run db (deleteById e req) s) = Response 500 (errorBody err)
     /\ store (run db (deleteById e req) s) = s).
Proof.
  intros Hrow.
  destruct e; cbn [modelOf] in *;
    unfold updateById, deleteById, updateStudent, updateTeacher,
      deleteStudent, deleteTeacher; cbn [run]; rewrite Hrow; cbn;
    split; intros ->; cbn; auto.
Qed.


End ById.

(** ** GET /{entity} on an empty table *)

Section EmptyList.
Context {Store : Type} (db : DataAccess Store).

Lemma ceilDiv_zero (l : Js.Number) :
  l <> Js.Num 0 /\ l <> Js.NaN -> Js.ceilDiv (Js.ofNat 0) l = Js.Num 0.
Proof.
  intros [H0 Hn]. change (Js.ofNat 0) with (Js.Num 0).
  destruct l as [| b | z]; cbn; [congruence | reflexivity |].
  destruct (Z.eqb_spec z 0); [congruence | reflexivity].
Qed.

(** With no student stored, the list answers 200 with
    [totalItems = 0], [totalPages = 0] and [data = []]. *)
Lemma students_empty_list (s : Store) (req : Request) :
  count db Student s = Resolved 0%nat ->
  (forall o, findAll db Student o s = Resolved []) ->
  let o := outcome (run db (getAllStudents req) s) in
  status o = Some 200
  /\ meta "totalItems" o = Some (JNum 0)
  /\ meta "totalPages" o = Some (JNum 0)
  /\ data o = Some (JArr []).
Proof.
  intros Hc Hf.
  pose proof (ceilDiv_zero _ (numOr_never_zero
    (Js.parseInt (q_limit (query req))) 10 ltac:(lia))) as Hz.
  unfold getAllStudents. cbn [run]. rewrite Hc. lcbn.
  destruct (Js.startsWith _ _); lcbn; rewrite Hf; lcbn; rewrite Hz; auto.
Qed.

(** With no teacher stored, the list answers 200 with
    [totalPages = 0] and [data = []]; the count is under [totalItem]. *)
Lemma teachers_empty_list (s : Store) (req : Request) :
  count db Teacher s = Resolved 0%nat ->
  (forall o, findAll db Teacher o s = Resolved []) ->
  let o := outcome (run db (getAllTeachers req) s) in
  status o = Some 200
  /\ meta "totalItem" o = Some (JNum 0)
  /\ meta "totalPages" o = Some (JNum 0)
  /\ data o = Some (JArr []).
Proof.
  intros Hc Hf.
  pose proof (ceilDiv_zero _ (numOr_never_zero
    (Js.parseInt (q_limit (query req))) 10 ltac:(lia))) as Hz.
  unfold getAllTeachers. cbn [run]. rewrite Hc. lcbn.
  destruct (Js.startsWith _ _); lcbn; rewrite Hf; lcbn; rewrite Hz; auto.
Qed.

(** C7, where the code parts from it.  Whatever the store and the
    request, the body of a teacher list has no [meta.totalItems]: the
    handler writes the count under [totalItem].  On the empty store the
    body is [{meta: {totalItem: 0, page: 1, totalPages: 0}, data: []}],
    where the student list has [totalItems: 0]. *)
Theorem teachers_list_lacks_totalItems (s : Store) (req : Request) :
  meta "totalItems" (outcome (run db (getAllTeachers req) s)) = None
  /\ outcome (run Memory.db (getAllTeachers (get noQuery)) Memory.empty)
     = Response 200
         (JObj [("meta", JObj [("totalItem", JNum 0); ("page", JNum 1);
                               ("totalPages", JNum 0)]);
                ("data", JArr [])])
  /\ outcome (run Memory.db (getAllStudents (get noQuery)) Memory.empty)
     = Response 200
         (JObj [("meta", JObj [("totalItems", JNum 0); ("page", JNum 1);
                               ("totalPages", JNum 0)]);
                ("data", JArr [])]).
Proof.
  split; [| split; reflexivity].
  unfold getAllTeachers. cbn [run].
  destruct (count db Teacher s); cbn; [| reflexivity].
  destruct (Js.startsWith _ _); cbn;
    destruct (findAll db Teacher _ s); reflexivity.
Qed.

End EmptyList.

(** ** The reference layer keeps the contract *)

Lemma memory_table_setTable (m : ModelName) (t : gmap string Json) (s : Memory.Tables) :
  Memory.table m (Memory.setTable m t s) = t.
Proof. destruct m; reflexivity. Qed.

(** A stored row is found, and after [destroy] it is not. *)
Lemma memory_destroy_removes (m : ModelName) (id : string) (row : Row) (s : Memory.Tables) :
  Memory.primaryKey row = Some id ->
  exists s', destroy Memory.db m row s = Resolved s'
             /\ absent Memory.db m id s'
             /\ forall id', id' <> id ->
                  Memory.table m s' !! id' = Memory.table m s !! id'.
Proof.
  intros Hk. eexists. cbn. rewrite Hk. split; [reflexivity | split].
  - intros o. cbn. rewrite memory_table_setTable. now rewrite lookup_delete_eq.
  - intros id' Hne. rewrite memory_table_setTable. now rewrite lookup_delete_ne.
Qed.

Lemma memory_empty_count (m : ModelName) : count Memory.db m Memory.empty = Resolved 0%nat.
Proof. destruct m; reflexivity. Qed.

(** ** The theorems at concrete requests *)

(** GET /students?limit=ten on the school: limit 10, page 1. *)
Lemma unparsed_limit_and_page_default_witness :
  let r := run Memory.db
             (getAll Students (get (mkQuery (Some "ten") None None None)))
             Memory.school in
  exists o,
    calls r = [CCount Student; CFindAll Student o]
    /\ limit o = Js.Num 10
    /\ offset o = Js.Num 0
    /\ meta "page" (outcome r) = Some (JNum 1).
Proof.
  cbv zeta.
  destruct (listRun_resolved Memory.db Student Memory.school _ 1 _ _ eq_refl
              (unparsed_limit_and_page_default Memory.db Memory.school Students
                 (get (mkQuery (Some "ten") None None None))))
    as (o & Hc & (Hl & Ho) & Hq).
  specialize (Hl (or_intror eq_refl)). specialize (Ho (or_introl eq_refl)).
  exists o. split; [exact Hc | split; [exact Hl | split]].
  - rewrite Ho, Hl. reflexivity.
  - vm_compute in Hc. injection Hc as <-.
    destruct (Hq [Memory.alice] eq_refl) as (payload & Hout & Hpage).
    rewrite Hout. apply Hpage. left. reflexivity.
Defined.

(** GET /teachers?page=3&limit=5: offset 10. *)
Lemma offset_of_page_and_limit_witness :
  let r := run Memory.db
             (getAll Teachers (get (mkQuery (Some "5") (Some "3") None None)))
             Memory.school in
  exists o,
    calls r = [CCount Teacher; CFindAll Teacher o]
    /\ offset o = Js.Num 10 /\ limit o = Js.Num 5.
Proof.
  cbv zeta.
  destruct (listRun_resolved Memory.db Teacher Memory.school _ 1 _ _ eq_refl
              (offset_of_page_and_limit Memory.db Memory.school Teachers
                 (get (mkQuery (Some "5") (Some "3") None None)) 3 5
                 eq_refl eq_refl ltac:(lia) ltac:(lia)
                 ltac:(unfold maxExact; lia)))
    as (o & Hc & (Ho & Hl) & _).
  exists o. auto.
Defined.

(** sortby=DescCreatedAt, sortby=Name, no sortby and an empty sortby. *)
Lemma sort_field_and_order_witness :
  let run_with sortby :=
    run Memory.db (getAll Students (get (mkQuery None None sortby None)))
        Memory.school in
  let sorted sortby entry :=
    exists o, calls (run_with sortby) = [CCount Student; CFindAll Student o]
              /\ order o = [entry] in
  sorted (Some "DescCreatedAt") ("CreatedAt", DESC)
  /\ sorted (Some "Name") ("Name", ASC)
  /\ sorted None ("name", ASC)
  /\ sorted (Some "") ("name", ASC).
Proof.
  cbv zeta.
  assert (H : forall sortby entry,
            listRun Memory.db Student Memory.school
              (run Memory.db (getAll Students (get (mkQuery None None sortby None)))
                   Memory.school)
              (fun o => order o = [entry]) (fun _ _ => True) ->
            exists o,
              calls (run Memory.db
                       (getAll Students (get (mkQuery None None sortby None)))
                       Memory.school)
              = [CCount Student; CFindAll Student o]
              /\ order o = [entry]).
  { intros sortby entry L.
    destruct (listRun_resolved Memory.db Student Memory.school _ 1 _ _ eq_refl L)
      as (o & Hc & Ho & _).
    exists o. auto. }
  repeat split; apply H.
  - apply (sort_field_and_order Memory.db Memory.school Students
             (get (mkQuery None None (Some "DescCreatedAt") None))).
    reflexivity.
  - apply (sort_field_and_order Memory.db Memory.school Students
             (get (mkQuery None None (Some "Name") None)));
      [reflexivity | discriminate | intros rest; discriminate].
  - apply (sort_field_and_order Memory.db Memory.school Students
             (get (mkQuery None None None None))).
    left. reflexivity.
  - apply (sort_field_and_order Memory.db Memory.school Students
             (get (mkQuery None None (Some "") None))).
    right. reflexivity.
Defined.

(** populate=course, teacher and populate=Course on students. *)
Lemma student_include_graph_witness :
  let list_of p :=
    run Memory.db (getAllStudents (get (mkQuery None None None (Some p))))
        Memory.school in
  let one_of p :=
    run Memory.db (getStudentById (byId "1" (mkQuery None None None (Some p)) JNull))
        Memory.school in
  handsOver Memory.db Student Memory.school
    (list_of "course, teacher") (one_of "course, teacher")
    courseOfStudentWithTeacher
  /\ handsOver Memory.db Student Memory.school
       (list_of "Course") (one_of "Course") courseOfStudent.
Proof.
  cbv zeta. split.
  - apply (student_include_graph Memory.db Memory.school Memory.school
             (byId "1" (mkQuery None None None (Some "course, teacher")) JNull)
             "course, teacher" eq_refl).
    + left. vm_compute. left. reflexivity.
    + vm_compute. right. left. reflexivity.
  - apply (student_include_graph Memory.db Memory.school Memory.school
             (byId "1" (mkQuery None None None (Some "Course")) JNull)
             "Course" eq_refl).
    + left. vm_compute. left. reflexivity.
    + vm_compute. intros [H | []]. discriminate H.
Defined.

(** populate=student on teachers. *)
Lemma teacher_students_without_course_witness :
  sends
    (run Memory.db (getAllTeachers (get (mkQuery None None None (Some "student"))))
         Memory.school)
    (run Memory.db
         (getTeacherById (byId "7" (mkQuery None None None (Some "student")) JNull))
         Memory.school)
    [].
Proof.
  apply (teacher_students_without_course Memory.db Memory.school Memory.school
           (byId "7" (mkQuery None None None (Some "student")) JNull)
           "student" eq_refl).
  - left. vm_compute. left. reflexivity.
  - vm_compute. intros [H | []]. discriminate H.
  - vm_compute. intros [H | []]. discriminate H.
Defined.

(** GET /students?page=-1&limit=5: offset -10, page -1; and
    GET /students?page=0&limit=0: page 1, limit 10. *)
Lemma nonzero_page_and_limit_unclamped_witness :
  let run_with l p :=
    run Memory.db (getAll Students (get (mkQuery (Some l) (Some p) None None)))
        Memory.school in
  (exists o,
     calls (run_with "5" "-1") = [CCount Student; CFindAll Student o]
     /\ limit o = Js.Num 5 /\ offset o = Js.Num (-10))
  /\
  (exists o,
     calls (run_with "0" "0") = [CCount Student; CFindAll Student o]
     /\ limit o = Js.Num 10 /\ offset o = Js.Num 0
     /\ meta "page" (outcome (run_with "0" "0")) = Some (JNum 1)).
Proof.
  cbv zeta. split.
  - destruct (listRun_resolved Memory.db Student Memory.school _ 1 _ _ eq_refl
                (nonzero_page_and_limit_unclamped Memory.db Memory.school Students
                   (get (mkQuery (Some "5") (Some "-1") None None))))
      as (o & Hc & (Hl & _ & _ & _ & Hx) & _).
    exists o. split; [exact Hc | split].
    + apply (Hl 5); [reflexivity | lia].
    + apply (Hx (-1) 5); [reflexivity | reflexivity | lia | lia |].
      unfold maxExact. lia.
  - destruct (listRun_resolved Memory.db Student Memory.school _ 1 _ _ eq_refl
                (nonzero_page_and_limit_unclamped Memory.db Memory.school Students
                   (get (mkQuery (Some "0") (Some "0") None None))))
      as (o & Hc & (_ & Hl & _ & Ho & _) & Hq).
    specialize (Hl eq_refl). specialize (Ho eq_refl).
    exists o. split; [exact Hc | split; [exact Hl | split]].
    + rewrite Ho, Hl. reflexivity.
    + vm_compute in Hc. injection Hc as <-.
      destruct (Hq [Memory.alice] eq_refl) as (payload & Hout & _ & Hpage).
      rewrite Hout. apply Hpage. reflexivity.
Defined.

(** Teacher 7 is in the school, teacher 9 is not; and teacher 7 on a
    read-only database. *)
Lemma by_id_404_or_200_witness :
  let req id := byId id noQuery (JObj [("name", JStr "Alan")]) in
  let on id h := outcome (run Memory.db (h (req id)) Memory.school) in
  on "9" getTeacherById = Response 404 notFound
  /\ on "9" updateTeacher = Response 404 notFound
  /\ on "9" deleteTeacher = Response 404 notFound
  /\ status (on "7" getTeacherById) = Some 200
  /\ status (on "7" updateTeacher) = Some 200
  /\ on "7" deleteTeacher = Response 200 deleted
  /\ outcome (run readOnly (updateTeacher (req "7")) Memory.school)
     = Response 500 (errorBody readOnlyError)
  /\ outcome (run readOnly (deleteTeacher (req "7")) Memory.school)
     = Response 500 (errorBody readOnlyError).
Proof.
  cbv zeta.
  destruct (by_id_404_or_200 Memory.db Memory.school Teachers
              (byId "9" noQuery (JObj [("name", JStr "Alan")]))) as [H404 _].
  destruct (by_id_404_or_200 Memory.db Memory.school Teachers
              (byId "7" noQuery (JObj [("name", JStr "Alan")]))) as [_ H200].
  destruct (by_id_404_or_200 readOnly Memory.school Teachers
              (byId "7" noQuery (JObj [("name", JStr "Alan")]))) as [_ H500].
  destruct H404 as ((Hg & _) & (Hu & _) & (Hd & _)).
  { intros o. reflexivity. }
  destruct H200 as (Hg' & Hu' & Hd' & _).
  { intros o. eexists. reflexivity. }
  destruct H500 as (_ & _ & _ & Hu5 & Hd5).
  { intros o. eexists. reflexivity. }
  refine (conj Hg (conj Hu (conj Hd (conj Hg' (conj _ (conj _ (conj _ _))))))).
  - apply Hu'. intros row Hrow. injection Hrow as <-. eexists. reflexivity.
  - apply Hd'. intros row Hrow. injection Hrow as <-. eexists. reflexivity.
  - apply (Hu5 Memory.turing readOnlyError); reflexivity.
  - apply (Hd5 Memory.turing readOnlyError); reflexivity.
Defined.


(** ** Where the code parts from the stated behaviour *)

(** C2: page 2^53 and limit 10 parse as they stand, both at least 1,
    yet the offset handed to [findAll] is not [(2^53 - 1) * 10]: the
    product is rounded to the nearest double. *)
Lemma offset_rounded_above_2_53 :
  let req := get (mkQuery (Some "10") (Some "9007199254740992") None None) in
  let r := run Memory.db (getAll Students req) Memory.school in
  Js.parseInt (q_page (query req)) = Js.Num 9007199254740992
  /\ Js.parseInt (q_limit (query req)) = Js.Num 10
  /\ findAllCalls r
     = [ {| limit := Js.Num 10; offset := Js.Num 90071992547409904;
            order := [("name", ASC)]; include := [] |} ]
  /\ Js.Num 90071992547409904 <> Js.Num ((9007199254740992 - 1) * 10).
Proof.
  cbv zeta. repeat split; try (vm_compute; reflexivity).
  intros H. vm_compute in H. discriminate H.
Qed.

(** C3: [sortby=] (present, empty) does not start with [Desc], yet it is
    not the sort field: the handler sorts by [name]. *)
Lemma empty_sortby_not_verbatim :
  let req := get (mkQuery None None (Some "") None) in
  let r := run Memory.db (getAll Students req) Memory.school in
  q_sortby (query req) = Some ""
  /\ Js.startsWith "" "Desc" = false
  /\ findAllCalls r
     = [ {| limit := Js.Num 10; offset := Js.Num 0;
            order := [("name", ASC)]; include := [] |} ]
  /\ ~ Forall (fun o => order o = [("", ASC)]) (findAllCalls r).
Proof.
  cbv zeta. repeat split.
  intros H. vm_compute in H. inversion H as [| o l Ho _]. discriminate Ho.
Qed.

(** C6: [page=0] parses to 0, and 0 is not used as it is: the handler
    resolves the page to 1, so the offset is 0 and not [(0 - 1) * 5]; in
    the same way [limit=0] resolves to 10. *)
Lemma page_zero_not_used_as_is :
  let req := get (mkQuery (Some "5") (Some "0") None None) in
  let r := run Memory.db (getAll Students req) Memory.school in
  Js.parseInt (q_page (query req)) = Js.Num 0
  /\ Js.parseInt (q_limit (query req)) = Js.Num 5
  /\ findAllCalls r
     = [ {| limit := Js.Num 5; offset := Js.Num 0;
            order := [("name", ASC)]; include := [] |} ]
  /\ meta "page" (outcome r) = Some (JNum 1)
  /\ ~ Forall (fun o => offset o = Js.Num ((0 - 1) * 5)) (findAllCalls r)
  /\ Forall (fun o => limit o = Js.Num 10)
       (findAllCalls (run Memory.db
          (getAll Students (get (mkQuery (Some "0") None None None)))
          Memory.school)).
Proof.
  cbv zeta. repeat split.
  - intros H. vm_compute in H. inversion H as [| o l Ho _]. discriminate Ho.
  - vm_compute. repeat constructor.
Qed.

(** C8: teacher 7 is in the school, but on a database that rejects
    writes PUT and DELETE /teachers/7 answer 500, not 200. *)
Lemma present_id_write_rejected_500 :
  let req := byId "7" noQuery (JObj [("name", JStr "Alan")]) in
  present readOnly Teacher "7" Memory.school
  /\ outcome (run readOnly (updateById Teachers req) Memory.school)
     = Response 500 (errorBody readOnlyError)
  /\ outcome (run readOnly (deleteById Teachers req) Memory.school)
     = Response 500 (errorBody readOnlyError)
  /\ status (outcome (run readOnly (updateById Teachers req) Memory.school))
     <> Some 200.
Proof.
  cbv zeta. repeat split.
  - intros o. eexists. reflexivity.
  - discriminate.
Qed.

(** ** GET /{entity}: errors, pagination window, page count *)

Section ListBehaviour.
Context {Store : Type} (db : DataAccess Store).

(** X1.  [count] is awaited before the [try] block: when it is rejected
    the list handler sends no response at all (no 500), [findAll] is
    never called and the store is as it was. *)
Theorem list_count_rejected_unanswered
    (s : Store) (e : Entity) (req : Request) (err : Error) :
  count db (modelOf e) s = Rejected err ->
  run db (getAll e req) s = mkRun s (Unhandled err) [CCount (modelOf e)].
Proof.
  intros Hc.
  destruct e; cbn [modelOf] in Hc;
    unfold getAll, getAllStudents, getAllTeachers; cbn [run];
    rewrite Hc; reflexivity.
Qed.

(** X2.  When [count] resolves and the [findAll] call is rejected, the
    list handler answers 500 with [{error: <message>}] and the store is
    as it was. *)
Theorem list_findAll_rejected_500
    (s : Store) (e : Entity) (req : Request) (n : nat) (err : Error) :
  let r := run db (getAll e req) s in
  count db (modelOf e) s = Resolved n ->
  Forall (fun o => findAll db (modelOf e) o s = Rejected err) (findAllCalls r) ->
  outcome r = Response 500 (errorBody err) /\ store r = s.
Proof.
  cbv zeta. intros Hc.
  destruct e; cbn [modelOf] in *;
    unfold getAll, getAllStudents, getAllTeachers, findAllCalls; cbn [run];
    rewrite Hc; lcbn;
    destruct (Js.startsWith _ _); lcbn;
    (destruct (findAll db _ _ s) eqn:Hf; lcbn;
     intros H; apply Forall_inv in H; rewrite Hf in H;
     [discriminate H | injection H as ->; auto]).
Qed.

(** X3.  Whatever the query, the limit handed to [findAll] is neither 0
    nor [NaN], and the page a 200 response reports is not 0.  Whenever
    that page [pg] and the limit [l] are finite and [(pg - 1) * l] is
    within 2^53, the offset handed to [findAll] is exactly
    [(pg - 1) * l]. *)
Theorem pagination_window_invariant (s : Store) (e : Entity) (req : Request) :
  listRun db (modelOf e) s (run db (getAll e req) s)
    (fun o => limit o <> Js.Num 0 /\ limit o <> Js.NaN)
    (fun o payload =>
       metaOf "page" payload <> Some (JNum 0)
       /\ forall pg l,
            metaOf "page" payload = Some (JNum pg) ->
            limit o = Js.Num l ->
            Z.abs ((pg - 1) * l) <= maxExact ->
            offset o = Js.Num ((pg - 1) * l)).
Proof.
  pose proof (numOr_never_zero (Js.parseInt (q_limit (query req))) 10
                ltac:(lia)) as Hl.
  pose proof (numOr_never_zero (Js.parseInt (q_page (query req))) 1
                ltac:(lia)) as [Hp0 Hpn].
  set (lim := Js.numOr (Js.parseInt (q_limit (query req))) 10) in *.
  set (page := Js.numOr (Js.parseInt (q_page (query req))) 1) in *.
  assert (Hoff : forall pg l, jnum page = JNum pg -> lim = Js.Num l ->
            Z.abs ((pg - 1) * l) <= maxExact ->
            Js.mul (Js.sub page (Js.Num 1)) lim = Js.Num ((pg - 1) * l)).
  { intros pg l Hpg Hlim Hsafe.
    destruct page as [| b | z]; try discriminate Hpg.
    injection Hpg as ->. rewrite Hlim in *.
    assert (l <> 0) by (destruct Hl; congruence).
    assert (Es : Js.sub (Js.Num pg) (Js.Num 1) = Js.Num (pg - 1))
      by (apply double_exact; unfold maxExact in *; nia).
    rewrite Es. apply double_exact. exact Hsafe. }
  assert (Hpage : jnum page <> JNum 0).
  { destruct page as [| b | z]; cbn; congruence. }
  open_listRun db s e ltac:(fold lim; fold page).
  all: try exact Hl.
  all: split; [congruence | intros pg l Hpg Hlim; apply Hoff; congruence].
Qed.

End ListBehaviour.

(** ** Math.ceil(total / limit): the rounded quotient *)

Lemma pow2_pos (n : Z) : 0 <= n -> 0 < 2 ^ n.
Proof. intros. apply Z.pow_pos_nonneg; lia. Qed.

Lemma log2Quotient_lower (t l : Z) :
  0 < t -> 0 < l ->
  l * 2 ^ Z.max 0 (Js.log2Quotient t l) <= t * 2 ^ Z.max 0 (- Js.log2Quotient t l).
Proof.
  intros Ht Hl. unfold Js.log2Quotient.
  destruct (Z.log2_spec t Ht) as [Ha _].
  destruct (Z.log2_spec l Hl) as [_ Hb].
  pose proof (Z.log2_nonneg t) as Ha0.
  pose proof (Z.log2_nonneg l) as Hb0.
  set (a := Z.log2 t) in *. set (b := Z.log2 l) in *.
  destruct (Z.ltb_spec (t * 2 ^ Z.max 0 (- (a - b))) (l * 2 ^ Z.max 0 (a - b)))
    as [Hlt | Hge]; [| lia].
  (* the quotient is below 2^(a-b): the answer is a-b-1 *)
  rewrite Z.pow_succ_r in Hb by lia.
  destruct (Z.le_gt_cases 1 (a - b)) as [Hk | Hk].
  - (* a - b - 1 >= 0 *)
    replace (Z.max 0 (a - b - 1)) with (a - b - 1) by lia.
    replace (Z.max 0 (- (a - b - 1))) with 0 by lia.
    rewrite Z.pow_0_r, Z.mul_1_r.
    assert (E : 2 ^ a = 2 ^ b * 2 ^ (a - b - 1) * 2).
    { replace (2 ^ a) with (2 ^ (b + (a - b - 1) + 1)) by (f_equal; lia).
      rewrite !Z.pow_add_r by lia. ring. }
    pose proof (pow2_pos (a - b - 1) ltac:(lia)).
    pose proof (pow2_pos b ltac:(lia)).
    nia.
  - replace (Z.max 0 (a - b - 1)) with 0 by lia.
    replace (Z.max 0 (- (a - b - 1))) with (b - a + 1) by lia.
    rewrite Z.pow_0_r, Z.mul_1_r.
    assert (E : 2 ^ b * 2 = 2 ^ a * 2 ^ (b - a + 1)).
    { replace (2 ^ (b - a + 1)) with (2 ^ ((b - a) + 1)) by (f_equal; lia).
      replace (2 ^ b) with (2 ^ (a + (b - a))) by (f_equal; lia).
      rewrite !Z.pow_add_r by lia. ring. }
    pose proof (pow2_pos (b - a + 1) ltac:(lia)).
    nia.
Qed.

Lemma ceil_unique (x d n : Z) :
  0 < d -> (n - 1) * d < x <= n * d -> - ((- x) / d) = n.
Proof.
  intros Hd H.
  assert (E : (- x) / d = - n).
  { symmetry. apply (Z.div_unique_pos (- x) d (- n) (n * d - x)); lia. }
  lia.
Qed.

Lemma ceil_bounds (x d : Z) :
  0 < d -> (- ((- x) / d) - 1) * d < x <= - ((- x) / d) * d.
Proof.
  intros Hd.
  pose proof (Z.mul_div_le (- x) d Hd).
  pose proof (Z.mul_succ_div_gt (- x) d Hd).
  lia.
Qed.

Lemma quotient_ceil (t l : Z) :
  0 < t < 2 ^ 53 -> 0 < l <= 2 ^ 53 ->
  Js.ceilOf (Js.quotient t l) = - ((- t) / l).
Proof.
  intros Ht Hl.
  pose proof (log2Quotient_lower t l ltac:(lia) ltac:(lia)) as HL.
  unfold Js.quotient.
  set (k := Js.log2Quotient t l) in *.
  set (e := Z.max (k - 52) (- 1074)).
  destruct (Z.le_gt_cases 0 e) as [He | He].
  - (* no fraction bits: the divisor is 1 *)
    assert (Hk : 52 <= k) by lia.
    replace (Z.max 0 k) with k in HL by lia.
    replace (Z.max 0 (- k)) with 0 in HL by lia.
    rewrite Z.pow_0_r, Z.mul_1_r in HL.
    assert (H52 : 2 ^ 52 <= 2 ^ k) by (apply Z.pow_le_mono_r; lia).
    assert (l = 1) by (change (2 ^ 53) with (2 * 2 ^ 52) in *; nia).
    subst l.
    assert (k < 53).
    { apply (Z.pow_lt_mono_r_iff 2); lia. }
    assert (He0 : e = 0) by lia.
    clearbody e. subst e.
    change (Z.max 0 (- 0)) with 0. change (Z.max 0 0) with 0.
    rewrite Z.pow_0_r, !Z.mul_1_r, Z.div_1_r, Z.mod_1_r.
    cbn. change (2 * 0) with 0. change (1 <? 0) with false.
    change (0 =? 1) with false. cbn. rewrite Z.div_1_r. lia.
  - (* e < 0 *)
    set (E := - e) in *.
    assert (HE : 0 < E) by lia.
    replace (Z.max 0 E) with E by lia.
    replace (Z.max 0 e) with 0 by lia.
    rewrite Z.pow_0_r, Z.mul_1_r.
    pose proof (pow2_pos E ltac:(lia)) as HP.
    assert (Hbig : l < 2 * 2 ^ E).
    { destruct (Z.le_gt_cases (- 1074) (k - 52)) as [Hc | Hc].
      - (* E = 52 - k *)
        assert (E = 52 - k) by lia.
        destruct (Z.le_gt_cases 0 k) as [Hk | Hk].
        + replace (Z.max 0 k) with k in HL by lia.
          replace (Z.max 0 (- k)) with 0 in HL by lia.
          rewrite Z.pow_0_r, Z.mul_1_r in HL.
          assert (E53 : 2 ^ 53 = 2 ^ k * (2 * 2 ^ E)).
          { replace (2 ^ 53) with (2 ^ (k + (1 + E))) by (f_equal; lia).
            rewrite !Z.pow_add_r by lia. ring. }
          pose proof (pow2_pos k ltac:(lia)). nia.
        + replace (Z.max 0 k) with 0 in HL by lia.
          replace (Z.max 0 (- k)) with (- k) in HL by lia.
          rewrite Z.pow_0_r, Z.mul_1_r in HL.
          assert (E53 : 2 * 2 ^ E = 2 ^ 53 * 2 ^ (- k)).
          { replace (2 ^ E) with (2 ^ (52 + - k)) by (f_equal; lia).
            rewrite Z.pow_add_r by lia. change (2 ^ 53) with (2 * 2 ^ 52). ring. }
          pose proof (pow2_pos (- k) ltac:(lia)). nia.
      - assert (E = 1074) by lia.
        assert (2 ^ 53 < 2 ^ E) by (apply Z.pow_lt_mono_r; lia).
        lia. }
    set (P := 2 ^ E) in *.
    pose proof (Z.div_mod (t * P) l ltac:(lia)) as Hdm.
    pose proof (Z.mod_pos_bound (t * P) l ltac:(lia)) as Hr.
    set (m := t * P / l) in *. set (r := (t * P) mod l) in *.
    pose proof (ceil_bounds t l ltac:(lia)) as Hn.
    set (n := - ((- t) / l)) in *.
    unfold Js.ceilOf.
    destruct (Z.leb_spec 0 e); [lia |]. fold E. fold P.
    apply ceil_unique; [lia |].
    assert (A1 : l * ((n - 1) * P) + P <= t * P) by nia.
    assert (A2 : t * P <= l * (n * P)) by nia.
    assert (Hlow : (n - 1) * P <= m).
    { assert ((n - 1) * P < m + 1) by (apply (Z.mul_lt_mono_pos_l l); lia).
      lia. }
    assert (Hup : m <= n * P).
    { apply (Z.mul_le_mono_pos_l _ _ l); lia. }
    destruct ((l <? 2 * r) || ((2 * r =? l) && Z.odd m)) eqn:Hround; cbv iota.
    + (* rounded up: the remainder is not zero *)
      assert (0 < r).
      { apply orb_true_iff in Hround as [H1 | H1].
        - apply Z.ltb_lt in H1. lia.
        - apply andb_true_iff in H1 as [H1 _]. apply Z.eqb_eq in H1. lia. }
      split; [lia |].
      assert (m < n * P) by (apply (Z.mul_lt_mono_pos_l l); lia).
      lia.
    + (* not rounded up: the quotient is not on the lower end *)
      apply orb_false_iff in Hround as [H1 _]. apply Z.ltb_ge in H1.
      split; [| exact Hup].
      destruct (Z.eq_dec m ((n - 1) * P)) as [Hm | Hm]; [| lia].
      exfalso. rewrite Hm in Hdm. lia.
Qed.

Lemma ceilDiv_exact (t l : Z) :
  0 <= t < maxExact -> 0 < l <= maxExact ->
  Js.ceilDiv (Js.Num t) (Js.Num l) = Js.Num (- ((- t) / l)).
Proof.
  unfold maxExact. change 9007199254740992 with (2 ^ 53). intros Ht Hl.
  unfold Js.ceilDiv.
  destruct (Z.eqb_spec l 0); [lia |].
  destruct (Z.eqb_spec t 0) as [-> | Ht0]; [reflexivity |].
  rewrite (Z.abs_eq t), (Z.abs_eq l) by lia.
  replace (Z.sgn t) with 1 by lia. replace (Z.sgn l) with 1 by lia.
  change (1 =? 1) with true. cbv iota.
  rewrite quotient_ceil by lia.
  apply double_exact. unfold maxExact. change 9007199254740992 with (2 ^ 53).
  pose proof (ceil_bounds t l ltac:(lia)).
  assert (0 <= - ((- t) / l) <= t) by nia.
  lia.
Qed.

Section PageCount.
Context {Store : Type} (db : DataAccess Store).

(** X4.  When the list is answered with data and the count is below
    2^53: for a limit [l] with [0 < l <= 2^53], [meta.totalPages] is the
    number [T] of pages of that size needed for the counted rows,
    [(T - 1) * l < total <= T * l]; for an infinite limit it is 0. *)
Theorem totalPages_counts_pages
    (s : Store) (e : Entity) (req : Request) (n : nat) :
  count db (modelOf e) s = Resolved n ->
  Z.of_nat n < maxExact ->
  listRun db (modelOf e) s (run db (getAll e req) s)
    (fun _ => True)
    (fun o payload =>
       (forall l, limit o = Js.Num l -> 0 < l <= maxExact ->
          exists T, metaOf "totalPages" payload = Some (JNum T)
                    /\ (T - 1) * l < Z.of_nat n <= T * l)
       /\ (forall b, limit o = Js.Inf b ->
             metaOf "totalPages" payload = Some (JNum 0))).
Proof.
  intros Hc Hn.
  assert (Et : Js.ofNat n = Js.Num (Z.of_nat n))
    by (apply double_exact; lia).
  assert (HT : forall l, 0 < l <= maxExact ->
            exists T, jnum (Js.ceilDiv (Js.Num (Z.of_nat n)) (Js.Num l)) = JNum T
                      /\ (T - 1) * l < Z.of_nat n <= T * l).
  { intros l Hl. rewrite ceilDiv_exact by lia.
    eexists. split; [reflexivity |]. apply ceil_bounds. lia. }
  unfold listRun, metaOf, meta. rewrite Hc.
  destruct e; cbn [modelOf] in Hc;
    unfold getAll, getAllStudents, getAllTeachers; cbn [run];
    rewrite Hc; lcbn; rewrite Et;
    (destruct (Js.startsWith _ _); lcbn;
     eexists;
     (split; [destruct (findAll db _ _ s); reflexivity |]);
     (split; [destruct (findAll db _ _ s); reflexivity |]);
     (split; [exact I |]);
     (destruct (findAll db _ _ s); [| reflexivity]);
     eexists; (split; [reflexivity |]); lcbn;
     (split;
      [ intros l El Hl; rewrite El;
        destruct (HT l Hl) as (T & ET & HB); exists T; rewrite ET; auto
      | intros b Eb; rewrite Eb; reflexivity ])).
Qed.

End PageCount.

(** ** populate: what the include graph depends on *)

Lemma asksCourse_dec (p : string) : {asksCourse p} + {~ asksCourse p}.
Proof.
  unfold asksCourse.
  destruct (in_dec string_dec "course" (tokens p));
    destruct (in_dec string_dec "courses" (tokens p)); tauto.
Qed.

Lemma asksNested_dec (e : Entity) (p : string) :
  {asksNested e p} + {~ asksNested e p}.
Proof.
  destruct e; cbn.
  - apply in_dec, string_dec.
  - destruct (in_dec string_dec "student" (tokens p));
      destruct (in_dec string_dec "students" (tokens p)); tauto.
Qed.

Section IncludeGraph.
Context {Store : Type} (db : DataAccess Store).

(** The include graph of either entity, by cases on the tokens. *)
Lemma include_graph_cases (s1 s2 : Store) (e : Entity) (req : Request) :
  let rl := run db (getAll e req) s1 in
  let ri := run db (getById e req) s2 in
  match q_populate (query req) with
  | None => sends rl ri []
  | Some p =>
      (~ asksCourse p -> sends rl ri [])
      /\ (asksCourse p -> asksNested e p -> sends rl ri (courseNested e))
      /\ (asksCourse p -> ~ asksNested e p -> sends rl ri (courseAlone e))
  end.
Proof.
  cbv zeta. destruct (q_populate (query req)) as [p |] eqn:Hq.
  - destruct e; cbn [asksNested courseNested courseAlone].
    + unfold asksCourse, sends. split; [| split].
      * intros Hn.
        assert (H1 : ~ In "course" (tokens p)) by tauto.
        assert (H2 : ~ In "courses" (tokens p)) by tauto.
        pose proof (includes_neither _ _ _ H1 H2) as Ec.
        run_populate db Hq p; rewrite Ec; split; solve_Forall.
      * intros Ec%includes_either Et%includes_In.
        run_populate db Hq p; rewrite Ec, Et; split; solve_Forall.
      * intros Ec%includes_either Et%includes_not_In.
        run_populate db Hq p; rewrite Ec, Et; split; solve_Forall.
    + unfold asksCourse, sends. split; [| split].
      * intros Hn.
        assert (H1 : ~ In "course" (tokens p)) by tauto.
        assert (H2 : ~ In "courses" (tokens p)) by tauto.
        pose proof (includes_neither _ _ _ H1 H2) as Ec.
        run_populate db Hq p; rewrite Ec; split; solve_Forall.
      * intros Ec%includes_either Es%includes_either.
        run_populate db Hq p; rewrite Ec, Es; split; solve_Forall.
      * intros Ec%includes_either Hn.
        assert (H1 : ~ In "student" (tokens p)) by tauto.
        assert (H2 : ~ In "students" (tokens p)) by tauto.
        pose proof (includes_neither _ _ _ H1 H2) as Es.
        run_populate db Hq p; rewrite Ec, Es; split; solve_Forall.
  - unfold sends.
    destruct e; unfold getAll, getById, getAllStudents, getStudentById,
      getAllTeachers, getTeacherById, findAllCalls, findByPkCalls;
      rewrite Hq; cbn [run];
      destruct (count db _ s1); cbn;
      destruct (findByPk db _ _ _ s2) as [[?|]|]; cbn;
      try destruct (Js.startsWith _ _); cbn;
      try destruct (findAll db _ _ s1); cbn;
      split; solve_Forall.
Qed.

(** X7.  The include graph depends on the populate value only through
    two facts: whether a [course] or [courses] token is present, and
    whether the token of the nested relation is.  Order, repetition,
    letter case, blanks around tokens and unknown tokens change nothing. *)
Theorem include_graph_from_recognised_tokens
    (s1 s2 s3 s4 : Store) (e : Entity) (req req' : Request) (p p' : string) :
  q_populate (query req) = Some p ->
  q_populate (query req') = Some p' ->
  (asksCourse p <-> asksCourse p') ->
  (asksNested e p <-> asksNested e p') ->
  exists g,
    sends (run db (getAll e req) s1) (run db (getById e req) s2) g
    /\ sends (run db (getAll e req') s3) (run db (getById e req') s4) g.
Proof.
  intros Hq Hq' Hc Hn.
  pose proof (include_graph_cases s1 s2 e req) as H.
  pose proof (include_graph_cases s3 s4 e req') as H'.
  cbv zeta in H, H'. rewrite Hq in H. rewrite Hq' in H'.
  destruct H as (A & B & C). destruct H' as (A' & B' & C').
  destruct (asksCourse_dec p) as [Yc | Nc].
  - destruct (asksNested_dec e p) as [Yn | Nn].
    + exists (courseNested e). split; [apply B | apply B']; tauto.
    + exists (courseAlone e). split; [apply C | apply C']; tauto.
  - exists []. split; [apply A | apply A']; tauto.
Qed.

(** X8.  Whatever the request, the include graph is one of three: empty,
    Course alone, or Course with the one nested relation of the entity.
    It never has two entries, never has Teacher or Student at the top,
    and never nests deeper than one level.  Without a [populate]
    parameter it is empty. *)
Theorem include_graph_is_one_of_three
    (s1 s2 : Store) (e : Entity) (req : Request) :
  exists g,
    sends (run db (getAll e req) s1) (run db (getById e req) s2) g
    /\ (g = [] \/ g = courseAlone e \/ g = courseNested e)
    /\ match q_populate (query req) with
       | None => g = []
       | Some _ => True
       end.
Proof.
  pose proof (include_graph_cases s1 s2 e req) as H. cbv zeta in H.
  destruct (q_populate (query req)) as [p |].
  - destruct H as (A & B & C).
    destruct (asksCourse_dec p) as [Yc | Nc].
    + destruct (asksNested_dec e p) as [Yn | Nn].
      * exists (courseNested e). auto.
      * exists (courseAlone e). auto.
    + exists []. auto.
  - exists []. auto.
Qed.

End IncludeGraph.

(** ** By-id handlers and POST: errors, writes, sequences of requests *)

Ltac unfold_by_id :=
  unfold getById, updateById, deleteById, createOne,
    getStudentById, getTeacherById, updateStudent, updateTeacher,
    deleteStudent, deleteTeacher, createStudent, createTeacher.

Section Writes.
Context {Store : Type} (db : DataAccess Store) (create : Create Store).

(** X6.  PUT and DELETE by id and POST always send a response: every
    call they make is inside their [try] block.  The status is 200, 404
    or 500 for PUT and DELETE, 201 or 500 for POST. *)
Theorem write_handlers_always_answer (s : Store) (e : Entity) (req : Request) :
  answers [200; 404; 500] (outcome (run db (updateById e req) s))
  /\ answers [200; 404; 500] (outcome (run db (deleteById e req) s))
  /\ answers [201; 500] (outcome (runCreate db create (createOne e req) s)).
Proof.
  repeat split.
  - destruct e; unfold_by_id; cbn [run];
      destruct (findByPk db _ _ _ s) as [[row|]|]; cbn; auto;
      destruct (update db _ row _ s); cbn; auto.
  - destruct e; unfold_by_id; cbn [run];
      destruct (findByPk db _ _ _ s) as [[row|]|]; cbn; auto;
      destruct (destroy db _ row s); cbn; auto.
  - destruct e; unfold_by_id; cbn [runCreate];
      destruct (create _ _ s) as [[? ?]|]; cbn; auto.
Qed.

(** X9.  When the lookup by primary key is rejected, GET, PUT and DELETE
    by id answer 500 with [{error: <message>}]; PUT and DELETE make no
    further call, so nothing is written. *)
Theorem by_id_lookup_rejected_500
    (s : Store) (e : Entity) (req : Request) (err : Error) :
  let m := modelOf e in
  let id := params_id req in
  (forall o, findByPk db m id o s = Rejected err) ->
  (outcome (run db (getById e req) s) = Response 500 (errorBody err)
   /\ store (run db (getById e req) s) = s)
  /\ run db (updateById e req) s
     = mkRun s (Response 500 (errorBody err)) [CFindByPk m id None]
  /\ run db (deleteById e req) s
     = mkRun s (Response 500 (errorBody err)) [CFindByPk m id None].
Proof.
  cbv zeta. intros Hr.
  destruct e; cbn [modelOf] in *; unfold_by_id; cbn [run]; rewrite !Hr; cbn; auto.
Qed.

(** X11.  PUT and DELETE act on the row the lookup found and on nothing
    else: PUT hands [update] that row and the request body as it came,
    DELETE hands [destroy] that row.  PUT answers 200 with the instance
    it looked up, in the state [update] left it in (the value the
    [update] promise resolves to is not used), and leaves the store
    [update] produced.  When the lookup finds nothing, neither makes a
    second call. *)
Theorem writes_act_on_the_found_row
    (s : Store) (e : Entity) (req : Request) :
  let m := modelOf e in
  let id := params_id req in
  (forall row, findByPk db m id None s = Resolved (Some row) ->
     calls (run db (updateById e req) s)
       = [CFindByPk m id None; CUpdate m row (body req)]
     /\ calls (run db (deleteById e req) s)
        = [CFindByPk m id None; CDestroy m row]
     /\ (forall u, update db m row (body req) s = Resolved u ->
           outcome (run db (updateById e req) s) = Response 200 (instanceAfter u)
           /\ store (run db (updateById e req) s) = storeAfter u))
  /\
  (findByPk db m id None s = Resolved None ->
     calls (run db (updateById e req) s) = [CFindByPk m id None]
     /\ calls (run db (deleteById e req) s) = [CFindByPk m id None]).
Proof.
  cbv zeta. split.
  - intros row Hrow.
    destruct e; cbn [modelOf] in *; unfold_by_id; cbn [run]; rewrite Hrow; cbn.
    all: split; [destruct (update db _ row _ s); reflexivity |].
    all: split; [destruct (destroy db _ row s); reflexivity |].
    all: intros u Hu; rewrite Hu; split; reflexivity.
  - intros Hnone.
    destruct e; cbn [modelOf] in *; unfold_by_id; cbn [run]; rewrite Hnone; cbn; auto.
Qed.

(** X12.  POST hands [create] the request body as it came.  When [create]
    resolves, the answer is 201 with the new instance and the store is
    the one [create] produced; when it is rejected, the answer is 500
    with [{error: <message>}] and the store is as it was. *)
Theorem create_201_or_500 (s : Store) (e : Entity) (req : Request) :
  match create (modelOf e) (body req) s with
  | Resolved (row, s') =>
      runCreate db create (createOne e req) s = mkRun s' (Response 201 row) []
  | Rejected err =>
      runCreate db create (createOne e req) s
      = mkRun s (Response 500 (errorBody err)) []
  end.
Proof.
  destruct e; unfold_by_id; cbn [runCreate modelOf];
    destruct (create _ _ s) as [[? ?]|]; reflexivity.
Qed.

(** X13.  After a DELETE that went through, in a store where the id is
    no longer found, GET and PUT on the same id answer 404 and PUT writes
    nothing. *)
Theorem deleted_row_is_gone_for_get_and_put
    (s s' : Store) (e : Entity) (req req' : Request) (row : Row) :
  let m := modelOf e in
  params_id req' = params_id req ->
  findByPk db m (params_id req) None s = Resolved (Some row) ->
  destroy db m row s = Resolved s' ->
  absent db m (params_id req) s' ->
  let after := store (run db (deleteById e req) s) in
  outcome (run db (getById e req') after) = Response 404 notFound
  /\ run db (updateById e req') after
     = mkRun after (Response 404 notFound) [CFindByPk m (params_id req) None].
Proof.
  cbv zeta. intros Hid Hrow Hdel Hgone. unfold absent in Hgone.
  assert (E : store (run db (deleteById e req) s) = s').
  { destruct e; cbn [modelOf] in *; unfold_by_id; cbn [run];
      rewrite Hrow; cbn; rewrite Hdel; reflexivity. }
  rewrite E.
  destruct e; cbn [modelOf] in *; unfold_by_id; cbn [run];
    rewrite Hid, !Hgone; cbn; auto.
Qed.

(** X14.  A PUT that went through, in a store where the lookup then
    finds the instance as [update] left it, is read back by GET: both
    answer 200 with the same body. *)
Theorem put_then_get_reads_the_update
    (s : Store) (e : Entity) (req req' : Request) (row : Row)
    (u : Updated Store) :
  let m := modelOf e in
  params_id req' = params_id req ->
  findByPk db m (params_id req) None s = Resolved (Some row) ->
  update db m row (body req) s = Resolved u ->
  (forall o, findByPk db m (params_id req) o (storeAfter u)
             = Resolved (Some (instanceAfter u))) ->
  let put := run db (updateById e req) s in
  outcome put = Response 200 (instanceAfter u)
  /\ outcome (run db (getById e req') (store put)) = outcome put.
Proof.
  cbv zeta. intros Hid Hrow Hupd Hread.
  assert (E : run db (updateById e req) s
              = mkRun (storeAfter u) (Response 200 (instanceAfter u))
                  [CFindByPk (modelOf e) (params_id req) None;
                   CUpdate (modelOf e) row (body req)]).
  { destruct e; cbn [modelOf] in *; unfold_by_id; cbn [run];
      rewrite Hrow; cbn; rewrite Hupd; reflexivity. }
  rewrite E. cbn [outcome store]. split; [reflexivity |].
  destruct e; cbn [modelOf] in *; unfold_by_id; cbn [run];
    rewrite Hid, Hread; reflexivity.
Qed.

(** X15.  A POST that went through, in a store where the lookup then
    finds the new instance under the requested id, is read back by GET
    with the body POST answered, 200 in place of 201. *)
Theorem post_then_get_reads_the_row
    (s s' : Store) (e : Entity) (req req' : Request) (row : Row) :
  let m := modelOf e in
  create m (body req) s = Resolved (row, s') ->
  (forall o, findByPk db m (params_id req') o s' = Resolved (Some row)) ->
  let post := runCreate db create (createOne e req) s in
  outcome post = Response 201 row
  /\ outcome (run db (getById e req') (store post)) = Response 200 row.
Proof.
  cbv zeta. intros Hc Hread.
  assert (E : runCreate db create (createOne e req) s
              = mkRun s' (Response 201 row) []).
  { destruct e; cbn [modelOf] in *; unfold_by_id; cbn [runCreate];
      rewrite Hc; reflexivity. }
  rewrite E. cbn [outcome store]. split; [reflexivity |].
  destruct e; cbn [modelOf] in *; unfold_by_id; cbn [run];
    rewrite Hread; reflexivity.
Qed.

End Writes.

(** ** parseInt on decimal numerals *)

Lemma string_app_cons (c : ascii) (r t : string) :
  (String c r ++ t)%string = String c (r ++ t)%string.
Proof. reflexivity. Qed.

Lemma digit_cases (d : Z) :
  0 <= d < 10 ->
  d = 0 \/ d = 1 \/ d = 2 \/ d = 3 \/ d = 4 \/ d = 5 \/ d = 6 \/ d = 7
  \/ d = 8 \/ d = 9.
Proof. lia. Qed.

Ltac each_digit H :=
  apply digit_cases in H;
  repeat (destruct H as [H | H]; [subst |]); [.. | subst].

Ltac concrete_digits :=
  repeat match goal with
    | |- context [digitChar ?n] =>
        let c := eval vm_compute in (digitChar n) in
        change (digitChar n) with c in *
    end.

Lemma digitValue_digitChar (d : Z) :
  0 <= d < 10 -> Js.digitValue (digitChar d) = Some d.
Proof. intros H. each_digit H; reflexivity. Qed.

Lemma digitChar_not_space (d : Z) :
  0 <= d < 10 -> Js.isWhiteSpace (digitChar d) = false.
Proof. intros H. each_digit H; reflexivity. Qed.

Lemma trimStart_white (w t : string) :
  allWhiteSpace w = true -> Js.trimStart (w ++ t)%string = Js.trimStart t.
Proof.
  induction w as [| c w IH]; intros H; [reflexivity |].
  cbn in H. apply andb_true_iff in H as [Hc Hw].
  rewrite string_app_cons. cbn [Js.trimStart]. rewrite Hc. auto.
Qed.

Lemma digits_numeral (ds : list Z) (rest : string) :
  Forall (fun d => 0 <= d < 10) ds -> endsNumeral rest ->
  Js.digits 10 (numeral ds ++ rest)%string = ds.
Proof.
  intros Hds Hrest. induction Hds as [| d ds Hd _ IH].
  - change (numeral [] ++ rest)%string with rest.
    destruct rest as [| c r]; [reflexivity |].
    cbn. destruct Hrest as (Hc & _).
    destruct (Js.digitValue c) as [v |] eqn:E; [| reflexivity].
    specialize (Hc v eq_refl). destruct (Z.ltb_spec v 10); [lia | reflexivity].
  - cbn [numeral fold_right]. rewrite string_app_cons. cbn [Js.digits].
    rewrite (digitValue_digitChar d Hd).
    destruct (Z.ltb_spec d 10); [| lia]. f_equal. exact IH.
Qed.

Lemma no_hex_mark (ds : list Z) (rest : string) :
  Forall (fun d => 0 <= d < 10) ds -> endsNumeral rest ->
  match (numeral ds ++ rest)%string with
  | EmptyString => True
  | String c _ => c <> "x"%char /\ c <> "X"%char
  end.
Proof.
  intros Hds Hrest. destruct Hds as [| d ds Hd _].
  - change (numeral [] ++ rest)%string with rest.
    destruct rest; [exact I | exact (proj2 Hrest)].
  - cbn [numeral fold_right]. rewrite string_app_cons.
    each_digit Hd; split; discriminate.
Qed.

Lemma parseInt_from_digit (sg : Sign) (d : Z) (u : string) (z : Z) (l : list Z) :
  0 <= d < 10 ->
  match u with
  | EmptyString => True
  | String c _ => c <> "x"%char /\ c <> "X"%char
  end ->
  Js.digits 10 (String (digitChar d) u) = z :: l ->
  Js.parseInt (Some (signString sg ++ String (digitChar d) u)%string)
  = Js.double (signValue sg * Js.mathInt 10 (z :: l)).
Proof.
  intros Hd Hu Hdig.
  assert (E : forall S1, S1 = String (digitChar d) u ->
            (let '(R, S2) :=
               match S1 with
               | String "0" (String "x" r) => (16, r)
               | String "0" (String "X" r) => (16, r)
               | _ => (10, S1)
               end in
             match Js.digits R S2 with
             | [] => Js.NaN
             | ds => Js.double (signValue sg * Js.mathInt R ds)
             end) = Js.double (signValue sg * Js.mathInt 10 (z :: l))).
  { intros S1 ->. each_digit Hd.
    all: concrete_digits.
    1: { destruct u as [| c u].
         - cbn -[Js.digits Js.mathInt Js.double]. now rewrite Hdig.
         - destruct Hu as [Hx HX].
           destruct c as [[] [] [] [] [] [] [] []]; try congruence;
             cbn -[Js.digits Js.mathInt Js.double]; now rewrite Hdig. }
    all: cbn -[Js.digits Js.mathInt Js.double]; now rewrite Hdig. }
  unfold Js.parseInt, Js.toStringArg.
  destruct sg; cbn [signString signValue] in *.
  - change ("" ++ String (digitChar d) u)%string with (String (digitChar d) u).
    cbn [Js.trimStart]. rewrite (digitChar_not_space d Hd).
    rewrite <- (E _ eq_refl).
    clear E Hdig. each_digit Hd; reflexivity.
  - change ("+" ++ String (digitChar d) u)%string
      with (String "+" (String (digitChar d) u)).
    rewrite <- (E _ eq_refl). reflexivity.
  - change ("-" ++ String (digitChar d) u)%string
      with (String "-" (String (digitChar d) u)).
    rewrite <- (E _ eq_refl). reflexivity.
Qed.

Lemma mathInt_snoc (R : Z) (ds : list Z) (d : Z) :
  Js.mathInt R (ds ++ [d]) = Js.mathInt R ds * R + d.
Proof. unfold Js.mathInt. now rewrite fold_left_app. Qed.

Lemma parseInt_skips_white (w t : string) :
  allWhiteSpace w = true ->
  Js.parseInt (Some (w ++ t)%string) = Js.parseInt (Some t).
Proof.
  intros Hw. unfold Js.parseInt, Js.toStringArg.
  now rewrite (trimStart_white w t Hw).
Qed.

(** X16.  [parseInt] on a decimal numeral, possibly after white space and
    a sign and possibly followed by other text, is the double nearest to
    the signed positional value of its digits: what follows the digits
    is ignored.  Up to 2^53 that is the value itself. *)
Theorem parseInt_reads_decimal
    (w : string) (sg : Sign) (ds : list Z) (rest : string) :
  allWhiteSpace w = true ->
  isDecimal ds ->
  endsNumeral rest ->
  Js.parseInt (Some (w ++ signString sg ++ numeral ds ++ rest)%string)
  = Js.double (signValue sg * Js.mathInt 10 ds)
  /\ (Js.mathInt 10 ds <= maxExact ->
      Js.parseInt (Some (w ++ signString sg ++ numeral ds ++ rest)%string)
      = Js.Num (signValue sg * Js.mathInt 10 ds)).
Proof.
  intros Hw [Hne Hds] Hrest.
  assert (E : Js.parseInt (Some (w ++ signString sg ++ numeral ds ++ rest)%string)
              = Js.double (signValue sg * Js.mathInt 10 ds)).
  { rewrite (parseInt_skips_white _ _ Hw).
    destruct ds as [| d ds]; [congruence |].
    pose proof (digits_numeral (d :: ds) rest Hds Hrest) as Hdig.
    inversion Hds as [| ? ? Hd Hds']; subst.
    pose proof (no_hex_mark ds rest Hds' Hrest) as Hu.
    cbn [numeral fold_right] in *. rewrite string_app_cons in *.
    apply (parseInt_from_digit sg d _ d ds Hd Hu Hdig). }
  split; [exact E |].
  intros Hsafe. rewrite E. apply double_exact.
  assert (0 <= Js.mathInt 10 ds).
  { unfold Js.mathInt.
    assert (G : forall acc, 0 <= acc ->
              0 <= fold_left (fun a d => a * 10 + d) ds acc).
    { clear - Hds. induction Hds as [| d ds Hd _ IH]; intros acc Ha; cbn;
        [exact Ha | apply IH; lia]. }
    apply G. lia. }
  destruct sg; cbn [signValue]; lia.
Qed.

(** ** split, trim and toLowerCase: the populate tokens *)

Lemma split_not_nil (sep : ascii) (s : string) : Js.split sep s <> [].
Proof.
  destruct s as [| c r]; cbn; [discriminate |].
  destruct (Ascii.eqb c sep); [discriminate |].
  destruct (Js.split sep r); discriminate.
Qed.

(** X18.  [split] loses nothing and invents nothing: joining the pieces
    with the separator gives the string back, no piece contains the
    separator, and there is one more piece than there are separators. *)
Theorem split_join_round_trip (sep : ascii) (s : string) :
  join sep (Js.split sep s) = s
  /\ Forall (fun piece => ~ In sep (chars piece)) (Js.split sep s)
  /\ length (Js.split sep s)
     = S (length (List.filter (fun c => Ascii.eqb c sep) (chars s))).
Proof.
  induction s as [| c r (IHj & IHf & IHl)].
  - cbn. repeat split. constructor; [tauto | constructor].
  - pose proof (split_not_nil sep r) as Hne.
    cbn [Js.split chars List.filter].
    destruct (Ascii.eqb_spec c sep) as [-> | Hc].
    + repeat split.
      * cbn [join]. destruct (Js.split sep r) as [| p ps]; [congruence |].
        now rewrite <- IHj.
      * constructor; [tauto | exact IHf].
      * cbn [length]. now rewrite IHl.
    + destruct (Js.split sep r) as [| p ps]; [congruence |].
      repeat split.
      * rewrite <- IHj. cbn [join]. destruct ps; reflexivity.
      * inversion IHf as [| ? ? Hp Hps]; subst.
        constructor; [| exact Hps].
        cbn [chars]. intros [E | E]; [congruence | tauto].
      * exact IHl.
Qed.

Lemma chars_split (sep : ascii) (s piece : string) (c : ascii) :
  In piece (Js.split sep s) -> In c (chars piece) ->
  In c (chars s) /\ c <> sep.
Proof.
  revert piece. induction s as [| a r IH]; intros piece Hp Hc.
  - cbn in Hp. destruct Hp as [<- | []]. destruct Hc.
  - pose proof (split_not_nil sep r) as Hne.
    cbn [Js.split] in Hp. cbn [chars].
    destruct (Ascii.eqb_spec a sep) as [-> | Ha].
    + destruct Hp as [<- | Hp]; [destruct Hc |].
      destruct (IH piece Hp Hc). split; [now right | assumption].
    + destruct (Js.split sep r) as [| p ps]; [congruence |].
      destruct Hp as [<- | Hp].
      * destruct Hc as [<- | Hc]; [split; [now left | assumption] |].
        destruct (IH p (or_introl eq_refl) Hc). split; [now right | assumption].
      * destruct (IH piece (or_intror Hp) Hc). split; [now right | assumption].
Qed.

Lemma chars_trimStart (s : string) (c : ascii) :
  In c (chars (Js.trimStart s)) -> In c (chars s).
Proof.
  induction s as [| a r IH]; cbn; [tauto |].
  destruct (Js.isWhiteSpace a); cbn; tauto.
Qed.

Lemma chars_trimEnd (s : string) (c : ascii) :
  In c (chars (Js.trimEnd s)) -> In c (chars s).
Proof.
  induction s as [| a r IH]; cbn; [tauto |].
  destruct (Js.trimEnd r) as [| b r'].
  - destruct (Js.isWhiteSpace a); cbn; tauto.
  - cbn [chars In] in *. tauto.
Qed.

Lemma trimStart_head (s : string) :
  match Js.trimStart s with
  | EmptyString => True
  | String c _ => Js.isWhiteSpace c = false
  end.
Proof.
  induction s as [| a r IH]; cbn; [exact I |].
  destruct (Js.isWhiteSpace a) eqn:E; [exact IH | exact E].
Qed.

Lemma trimEnd_idempotent (s : string) :
  Js.trimEnd (Js.trimEnd s) = Js.trimEnd s.
Proof.
  induction s as [| a r IH]; [reflexivity |].
  cbn [Js.trimEnd].
  destruct (Js.trimEnd r) as [| b r'] eqn:E.
  - destruct (Js.isWhiteSpace a) eqn:Ea; [reflexivity |].
    cbn. now rewrite Ea.
  - cbn [Js.trimEnd] in *. now rewrite IH.
Qed.

Lemma trimEnd_keeps_head (c : ascii) (r : string) :
  Js.isWhiteSpace c = false ->
  exists r', Js.trimEnd (String c r) = String c r'.
Proof.
  intros Hc. cbn [Js.trimEnd].
  destruct (Js.trimEnd r); [rewrite Hc |]; eauto.
Qed.

(** [trim] leaves a trimmed string as it is. *)
Lemma trim_idempotent (s : string) : Js.trim (Js.trim s) = Js.trim s.
Proof.
  unfold Js.trim.
  pose proof (trimStart_head s) as Hh.
  destruct (Js.trimStart s) as [| c r]; [reflexivity |].
  destruct (trimEnd_keeps_head c r Hh) as [r' E].
  rewrite E. cbn [Js.trimStart]. rewrite Hh.
  rewrite <- E. apply trimEnd_idempotent.
Qed.

Lemma lowerChar_idempotent (c : ascii) :
  Js.lowerChar (Js.lowerChar c) = Js.lowerChar c.
Proof. destruct c as [[] [] [] [] [] [] [] []]; reflexivity. Qed.

Lemma chars_toLowerCase (s : string) (c : ascii) :
  In c (chars (Js.toLowerCase s)) -> Js.lowerChar c = c.
Proof.
  induction s as [| a r IH]; cbn; [tauto |].
  intros [<- | H]; [apply lowerChar_idempotent | auto].
Qed.

Lemma toLowerCase_fixed (s : string) :
  (forall c, In c (chars s) -> Js.lowerChar c = c) -> Js.toLowerCase s = s.
Proof.
  induction s as [| a r IH]; intros H; [reflexivity |].
  cbn. rewrite (H a (or_introl eq_refl)). f_equal.
  apply IH. intros c Hc. apply H. now right.
Qed.

(** X17.  The populate tokens are in normal form: there is always at
    least one, and each of them is trimmed, is in lower case and has no
    comma in it. *)
Theorem tokens_normal_form (p : string) :
  tokens p <> []
  /\ Forall (fun t => Js.trim t = t
                      /\ Js.toLowerCase t = t
                      /\ ~ In ","%char (chars t))
            (tokens p).
Proof.
  unfold tokens. split.
  - pose proof (split_not_nil "," (Js.toLowerCase p)).
    destruct (Js.split "," (Js.toLowerCase p)); [congruence | discriminate].
  - apply List.Forall_forall. intros t Ht.
    apply in_map_iff in Ht as (piece & <- & Hp).
    assert (Hsub : forall c, In c (chars (Js.trim piece)) ->
                             In c (chars (Js.toLowerCase p)) /\ c <> ","%char).
    { intros c Hc. apply (chars_split _ _ piece); [exact Hp |].
      unfold Js.trim in Hc. now apply chars_trimStart, chars_trimEnd. }
    split; [apply trim_idempotent | split].
    + apply toLowerCase_fixed. intros c Hc.
      apply (chars_toLowerCase p). now apply Hsub.
    + intros Hc. now destruct (Hsub _ Hc).
Qed.

(** ** sortby: what an order entry says about the request *)

Lemma strOr_not_empty (v : option string) (d : string) :
  d <> "" -> Js.strOr v d <> "".
Proof. intros Hd. destruct v as [[| c r] |]; cbn; congruence. Qed.

Section SortEntry.
Context {Store : Type} (db : DataAccess Store).

(** X5.  Every [findAll] call carries exactly one order entry, and the
    entry gives the sort key back: descending on [f] comes from the key
    [Desc] followed by [f], ascending on [f] from the key [f].  So an
    ascending sort is never on an empty field nor on a field whose name
    starts with [Desc]. *)
Theorem order_entry_gives_the_key_back (s : Store) (e : Entity) (req : Request) :
  let key := Js.strOr (q_sortby (query req)) "name" in
  Forall (fun o =>
            exists f dir,
              order o = [(f, dir)]
              /\ key = match dir with
                       | DESC => ("Desc" ++ f)%string
                       | ASC => f
                       end
              /\ (dir = ASC -> Js.startsWith f "Desc" = false /\ f <> ""))
         (findAllCalls (run db (getAll e req) s)).
Proof.
  cbv zeta.
  pose proof (strOr_not_empty (q_sortby (query req)) "name" ltac:(discriminate))
    as Hne.
  set (key := Js.strOr (q_sortby (query req)) "name") in *.
  destruct e; unfold getAll, getAllStudents, getAllTeachers, findAllCalls;
    cbn [run]; (destruct (count db _ s); cbn; [| constructor]); fold key;
    (destruct (Js.startsWith key "Desc") eqn:E; cbn;
     destruct (findAll db _ _ s); cbn;
     (constructor; [| constructor]); cbn [order];
     [ apply startsWith_Desc in E as [rest E]; exists rest, DESC;
       rewrite E; repeat split; discriminate
     | apply startsWith_Desc in E as [rest E]; exists rest, DESC;
       rewrite E; repeat split; discriminate
     | exists key, ASC; auto
     | exists key, ASC; auto ]).
Qed.

End SortEntry.

(** ** The further theorems at concrete requests *)

Ltac find_in := apply includes_In; vm_compute; reflexivity.
Ltac find_token := first [find_in | left; find_in | right; find_in].

(** With the database unreachable, GET /students gets no answer. *)
Lemma list_count_rejected_unanswered_witness :
  run offline (getAll Students (get noQuery)) tt
  = mkRun tt (Unhandled unreachable) [CCount Student].
Proof.
  exact (list_count_rejected_unanswered offline tt Students (get noQuery)
           unreachable eq_refl).
Defined.

(** GET /students?limit=-5 on the school: the engine refuses the window. *)
Lemma list_findAll_rejected_500_witness :
  let r := run Memory.db
             (getAll Students (get (mkQuery (Some "-5") None None None)))
             Memory.school in
  outcome r = Response 500 (errorBody (mkError "negative LIMIT or OFFSET"))
  /\ store r = Memory.school.
Proof.
  apply (list_findAll_rejected_500 Memory.db Memory.school Students
           (get (mkQuery (Some "-5") None None None)) 1
           (mkError "negative LIMIT or OFFSET")).
  - reflexivity.
  - vm_compute. repeat constructor.
Defined.

(** GET /teachers?limit=5 on the school: one teacher, one page. *)
Lemma totalPages_counts_pages_witness :
  let r := run Memory.db
             (getAll Teachers (get (mkQuery (Some "5") None None None)))
             Memory.school in
  meta "totalPages" (outcome r) = Some (JNum 1).
Proof.
  cbv zeta.
  destruct (listRun_resolved Memory.db Teacher Memory.school _ 1 _ _ eq_refl
              (totalPages_counts_pages Memory.db Memory.school Teachers
                 (get (mkQuery (Some "5") None None None)) 1 eq_refl
                 ltac:(unfold maxExact; lia)))
    as (o & Hc & _ & Hq).
  vm_compute in Hc. injection Hc as <-.
  destruct (Hq [Memory.turing] eq_refl) as (payload & Hout & Hfin & _).
  destruct (Hfin 5 eq_refl ltac:(unfold maxExact; lia)) as (T & HT & Hb).
  rewrite Hout. unfold metaOf in HT. rewrite HT.
  do 2 f_equal. lia.
Defined.

(** populate=teacher,  COURSES ,foo,teacher and populate=course,teacher. *)
Lemma include_graph_from_recognised_tokens_witness :
  let req p := byId "1" (mkQuery None None None (Some p)) JNull in
  let p := "teacher,  COURSES ,foo,teacher" in
  let p' := "course,teacher" in
  exists g,
    sends (run Memory.db (getAll Students (req p)) Memory.school)
          (run Memory.db (getById Students (req p)) Memory.school) g
    /\ sends (run Memory.db (getAll Students (req p')) Memory.school)
             (run Memory.db (getById Students (req p')) Memory.school) g.
Proof.
  cbv zeta.
  apply (include_graph_from_recognised_tokens Memory.db
           Memory.school Memory.school Memory.school Memory.school Students
           (byId "1" (mkQuery None None None (Some "teacher,  COURSES ,foo,teacher")) JNull)
           (byId "1" (mkQuery None None None (Some "course,teacher")) JNull)
           "teacher,  COURSES ,foo,teacher" "course,teacher" eq_refl eq_refl).
  - split; intros _; unfold asksCourse; find_token.
  - split; intros _; unfold asksNested; find_token.
Defined.

(** With the database unreachable, the by-id handlers answer 500. *)
Lemma by_id_lookup_rejected_500_witness :
  let req := byId "7" noQuery (JObj [("name", JStr "Alan")]) in
  outcome (run offline (getById Teachers req) tt)
    = Response 500 (errorBody unreachable)
  /\ run offline (updateById Teachers req) tt
     = mkRun tt (Response 500 (errorBody unreachable)) [CFindByPk Teacher "7" None]
  /\ run offline (deleteById Teachers req) tt
     = mkRun tt (Response 500 (errorBody unreachable)) [CFindByPk Teacher "7" None].
Proof.
  cbv zeta.
  destruct (by_id_lookup_rejected_500 offline tt Teachers
              (byId "7" noQuery (JObj [("name", JStr "Alan")])) unreachable)
    as ((Hg & _) & Hu & Hd).
  - intros o. reflexivity.
  - exact (conj Hg (conj Hu Hd)).
Defined.

(** PUT and DELETE /teachers/7 on a read-only database. *)
Lemma rejected_write_500_witness :
  let req := byId "7" noQuery (JObj [("name", JStr "Alan")]) in
  (outcome (run readOnly (updateById Teachers req) Memory.school)
     = Response 500 (errorBody readOnlyError)
   /\ store (run readOnly (updateById Teachers req) Memory.school) = Memory.school)
  /\ (outcome (run readOnly (deleteById Teachers req) Memory.school)
        = Response 500 (errorBody readOnlyError)
      /\ store (run readOnly (deleteById Teachers req) Memory.school) = Memory.school).
Proof.
  cbv zeta.
  destruct (rejected_write_500 readOnly Memory.school Teachers
              (byId "7" noQuery (JObj [("name", JStr "Alan")]))
              Memory.turing readOnlyError eq_refl) as [Hu Hd].
  split; [apply Hu | apply Hd]; reflexivity.
Defined.

(** PUT and DELETE on teacher 7, who is in the school, and on teacher 9,
    who is not; and PUT on teacher 7 where [update] leaves the instance
    as it was: the answer is the row as it was found. *)
Lemma writes_act_on_the_found_row_witness :
  let values := JObj [("name", JStr "Alan")] in
  calls (run Memory.db (updateById Teachers (byId "7" noQuery values)) Memory.school)
    = [CFindByPk Teacher "7" None; CUpdate Teacher Memory.turing values]
  /\ calls (run Memory.db (deleteById Teachers (byId "7" noQuery values)) Memory.school)
     = [CFindByPk Teacher "7" None; CDestroy Teacher Memory.turing]
  /\ calls (run Memory.db (updateById Teachers (byId "9" noQuery values)) Memory.school)
     = [CFindByPk Teacher "9" None]
  /\ calls (run Memory.db (deleteById Teachers (byId "9" noQuery values)) Memory.school)
     = [CFindByPk Teacher "9" None]
  /\ outcome (run Memory.db (updateById Teachers (byId "7" noQuery values)) Memory.school)
     = Response 200 (JObj [("id", JStr "7"); ("name", JStr "Alan");
                           ("department", JStr "Mathematics")])
  /\ outcome (run detached (updateById Teachers (byId "7" noQuery values)) Memory.school)
     = Response 200 Memory.turing.
Proof.
  cbv zeta.
  destruct (writes_act_on_the_found_row Memory.db Memory.school Teachers
              (byId "7" noQuery (JObj [("name", JStr "Alan")]))) as [Hfound _].
  destruct (writes_act_on_the_found_row Memory.db Memory.school Teachers
              (byId "9" noQuery (JObj [("name", JStr "Alan")]))) as [_ Hnone].
  destruct (writes_act_on_the_found_row detached Memory.school Teachers
              (byId "7" noQuery (JObj [("name", JStr "Alan")]))) as [Hdet _].
  destruct (Hfound Memory.turing eq_refl) as (Hu & Hd & Hout).
  destruct (Hnone eq_refl) as (Hu' & Hd').
  destruct (Hdet Memory.turing eq_refl) as (_ & _ & Hout').
  refine (conj Hu (conj Hd (conj Hu' (conj Hd' (conj _ _))))).
  - exact (proj1 (Hout _ eq_refl)).
  - exact (proj1 (Hout' _ eq_refl)).
Defined.

(** DELETE /teachers/7, then GET and PUT /teachers/7. *)
Lemma deleted_row_is_gone_for_get_and_put_witness :
  let after := store (run Memory.db (deleteById Teachers (byId "7" noQuery JNull))
                          Memory.school) in
  let req' := byId "7" (mkQuery None None None (Some "course"))
                   (JObj [("name", JStr "Alan")]) in
  outcome (run Memory.db (getById Teachers req') after) = Response 404 notFound
  /\ run Memory.db (updateById Teachers req') after
     = mkRun after (Response 404 notFound) [CFindByPk Teacher "7" None].
Proof.
  apply (deleted_row_is_gone_for_get_and_put Memory.db Memory.school
           (Memory.mkTables {[ "1" := Memory.alice ]} ∅ ∅) Teachers
           (byId "7" noQuery JNull)
           (byId "7" (mkQuery None None None (Some "course"))
                 (JObj [("name", JStr "Alan")]))
           Memory.turing eq_refl eq_refl eq_refl).
  intros o. reflexivity.
Defined.

(** PUT /teachers/7 with a new name, then GET /teachers/7. *)
Lemma put_then_get_reads_the_update_witness :
  let alan := JObj [("id", JStr "7"); ("name", JStr "Alan");
                    ("department", JStr "Mathematics")] in
  let put := run Memory.db
               (updateById Teachers (byId "7" noQuery (JObj [("name", JStr "Alan")])))
               Memory.school in
  outcome put = Response 200 alan
  /\ outcome (run Memory.db (getById Teachers (byId "7" noQuery JNull)) (store put))
     = outcome put.
Proof.
  apply (put_then_get_reads_the_update Memory.db Memory.school Teachers
           (byId "7" noQuery (JObj [("name", JStr "Alan")]))
           (byId "7" noQuery JNull)
           Memory.turing
           (mkUpdated
              (JObj [("id", JStr "7"); ("name", JStr "Alan");
                     ("department", JStr "Mathematics")])
              (JObj [("id", JStr "7"); ("name", JStr "Alan");
                     ("department", JStr "Mathematics")])
              (Memory.mkTables {[ "1" := Memory.alice ]}
                 {[ "7" := JObj [("id", JStr "7"); ("name", JStr "Alan");
                                 ("department", JStr "Mathematics")] ]} ∅))
           eq_refl eq_refl).
  - reflexivity.
  - intros o. reflexivity.
Defined.

(** POST /students with a new student, then GET /students/2. *)
Lemma post_then_get_reads_the_row_witness :
  let bob := JObj [("id", JStr "2"); ("name", JStr "Bob")] in
  let post := runCreate Memory.db memoryCreate
                (createOne Students (mkRequest noQuery "" bob)) Memory.school in
  outcome post = Response 201 bob
  /\ outcome (run Memory.db (getById Students (byId "2" noQuery JNull)) (store post))
     = Response 200 bob.
Proof.
  apply (post_then_get_reads_the_row Memory.db memoryCreate Memory.school
           (Memory.mkTables
              (<[ "2" := JObj [("id", JStr "2"); ("name", JStr "Bob")] ]>
                 {[ "1" := Memory.alice ]})
              {[ "7" := Memory.turing ]} ∅)
           Students
           (mkRequest noQuery "" (JObj [("id", JStr "2"); ("name", JStr "Bob")]))
           (byId "2" noQuery JNull)
           (JObj [("id", JStr "2"); ("name", JStr "Bob")])).
  - reflexivity.
  - intros o. reflexivity.
Defined.

(** parseInt(" +25px") is 25. *)
Lemma parseInt_reads_decimal_witness :
  Js.parseInt (Some " +25px") = Js.Num 25.
Proof.
  apply (parseInt_reads_decimal " " Plus [2; 5] "px" eq_refl).
  - split; [discriminate | repeat constructor; lia].
  - split; [| split; discriminate].
    intros d H. vm_compute in H. injection H as <-. lia.
  - vm_compute. discriminate.
Defined.
